(** * otree.bots.browser: the browser-bot worker, its Redis protocol and
      the per-request proxy

    A shallow embedding of [src/otree/bots/browser.py].  Python values are
    a small JSON-like datatype, dictionaries are [gmap]s, the mutable
    [Worker] object is threaded explicitly through a state-and-exception
    monad, and the Redis server is a map from keys to lists of messages. *)

From stdpp Require Import gmap strings list fin_maps pretty.
From Stdlib Require Import ZArith NArith Ascii String.

#[local] Set Warnings "-register-all".
#[local] Open Scope string_scope.

(** ** Python values *)

(** The values that travel through the worker: what [json.loads] can
    produce (numbers are restricted to integers), plus [PObj], an opaque
    Python object such as the page class stored under ['page_class'],
    which [json.dumps] refuses. *)
Inductive pyval : Type :=
  | PNone
  | PBool (b : bool)
  | PInt (z : Z)
  | PStr (s : string)
  | PList (l : list pyval)
  | PDict (d : gmap string pyval)
  | PObj (name : string).

(** A Python [dict] with string keys. *)
Abbreviation pydict := (gmap string pyval).

(** The exceptions the module can see; all of them derive from
    [Exception], so [except Exception] catches each of them. *)
Inductive exn : Type :=
  | KeyError (key : pyval)
  | TypeError (msg : string)
  | ValueError (msg : string)
  | IndexError (msg : string)
  | AttributeError (msg : string)
  | StopIteration (msg : string)
  | AssertionError (arg : pyval)
  | DoesNotExist
  | Exception_ (arg : pyval).

(** [bool(v)]: the truth value Python gives to [v]. *)
Definition py_truthy (v : pyval) : bool :=
  match v with
  | PNone => false
  | PBool b => b
  | PInt z => negb (z =? 0)%Z
  | PStr s => negb (String.eqb s EmptyString)
  | PList l => match l with [] => false | _ => true end
  | PDict d => negb (bool_decide (d = ∅))
  | PObj _ => true
  end.

(** [a or b]. *)
Definition py_or (a b : pyval) : pyval := if py_truthy a then a else b.

(** [str(v)] as used by ['{}'.format(v)], for the hashable values that
    can reach a format call in this module. Containers are unhashable
    and raise before any formatting, so their rendering is never
    observed; they print as their bracket pair. *)
Definition py_str (v : pyval) : string :=
  match v with
  | PNone => "None"
  | PBool true => "True"
  | PBool false => "False"
  | PInt z => pretty z
  | PStr s => s
  | PList _ => "[]"
  | PDict _ => "{}"
  | PObj name => name
  end.

(** Whether [hash(v)] succeeds. *)
Definition hashable (v : pyval) : bool :=
  match v with
  | PList _ | PDict _ => false
  | _ => true
  end.

(** ** Dictionary primitives *)

Definition unhashable : exn := TypeError "unhashable type".

(** [d[k]] on a dictionary whose keys are all strings: an unhashable key
    is a [TypeError], any other absent key a [KeyError]. The string that
    was found is returned with the value. *)
Definition dict_getitem {A} (d : gmap string A) (k : pyval) : exn + (string * A) :=
  match k with
  | PStr s =>
      match d !! s with
      | Some a => inr (s, a)
      | None => inl (KeyError k)
      end
  | _ => if hashable k then inl (KeyError k) else inl unhashable
  end.

(** [d.pop(k)]: removes and returns, [KeyError] when absent. *)
Definition dict_pop {A} (d : gmap string A) (k : pyval) : exn + (A * gmap string A) :=
  match dict_getitem d k with
  | inl e => inl e
  | inr (s, a) => inr (a, delete s d)
  end.

(** [d.pop(k, None)] with a string key, keeping only the dictionary:
    never raises. *)
Definition dict_pop_default {A} (d : gmap string A) (k : string) : gmap string A :=
  delete k d.

(** [v[k]] for an arbitrary value [v] and a string key, as in
    [message['response_key']]. *)
Definition py_subscript (v : pyval) (k : string) : exn + pyval :=
  match v with
  | PDict d =>
      match d !! k with
      | Some x => inr x
      | None => inl (KeyError (PStr k))
      end
  | PStr _ | PList _ => inl (TypeError "indices must be integers")
  | _ => inl (TypeError "object is not subscriptable")
  end.

(** [v.get(k, dflt)]. Only dictionaries have [get]. *)
Definition py_get (v : pyval) (k : string) (dflt : pyval) : exn + pyval :=
  match v with
  | PDict d => inr (default dflt (d !! k))
  | _ => inl (AttributeError "get")
  end.

(** ** A state-and-exception monad

    A Python method mutates [self] and either returns or raises; the
    mutations made before a [raise] stay. *)
Definition M (St A : Type) : Type := St -> (exn + A) * St.

Definition ret {St A} (a : A) : M St A := fun s => (inr a, s).
Definition raise {St A} (e : exn) : M St A := fun s => (inl e, s).
Definition bind {St A B} (c : M St A) (k : A -> M St B) : M St B :=
  fun s =>
    match c s with
    | (inr a, s') => k a s'
    | (inl e, s') => (inl e, s')
    end.
Definition modify {St} (f : St -> St) : M St unit := fun s => (inr tt, f s).
Definition lift_result {St A} (r : exn + A) : M St A := fun s => (r, s).

Declare Scope py_scope.
Delimit Scope py_scope with py.
Notation "x <- c ;; k" := (bind c (fun x => k))
  (at level 100, c at next level, right associativity) : py_scope.
Notation "c ;;; k" := (bind c (fun _ => k))
  (at level 100, right associativity) : py_scope.

(** ** The bot and its generator *)

(** What one [next(...)] on the submits generator does: yield a
    submission dictionary, or raise (a failed assertion of the player
    bot, for instance). *)
Inductive gen_item : Type :=
  | GenYield (submission : pydict)
  | GenRaise (exc : exn).

(** The generator is the list of what it still has to do. Once the list
    is empty, or once it has raised, it is finished and every further
    [next] raises [StopIteration]. What the generator does with [path]
    and [html] of its bot is the bot's business and is not modelled. *)
Definition generator : Type := list gen_item.

Definition next (g : generator) : (exn + pydict) * generator :=
  match g with
  | [] => (inl (StopIteration EmptyString), [])
  | GenYield submission :: g' => (inr submission, g')
  | GenRaise exc :: _ => (inl exc, [])
  end.

Record ParticipantBot : Type := mkParticipantBot {
  submits_generator : generator;
  path : pyval;
  html : pyval
}.

(** ** Module constants *)

Definition REDIS_KEY_PREFIX : string := "otree-bots".
Definition SESSIONS_PRUNE_LIMIT : Z := 50.

(** ** The worker *)

(** The fields of a [Worker]. Its [redis_conn] is the server, which the
    loop below takes and gives back next to the worker. *)
Record Worker : Type := mkWorker {
  browser_bots : gmap string ParticipantBot;
  prepared_submits : gmap string pydict;
  redis_listen_keys : list string
}.

Definition set_browser_bots (f : gmap string ParticipantBot -> gmap string ParticipantBot)
    (self : Worker) : Worker :=
  {| browser_bots := f (browser_bots self);
     prepared_submits := prepared_submits self;
     redis_listen_keys := redis_listen_keys self |}.

Definition set_prepared_submits (f : gmap string pydict -> gmap string pydict)
    (self : Worker) : Worker :=
  {| browser_bots := browser_bots self;
     prepared_submits := f (prepared_submits self);
     redis_listen_keys := redis_listen_keys self |}.

(** The generator of the bot stored for [code], if any. *)
Definition generator_of (self : Worker) (code : string) : option generator :=
  submits_generator <$> browser_bots self !! code.

(** ['{}-{}'.format(REDIS_KEY_PREFIX, char) for char in char_range] *)
Definition listen_keys_of (char_range : string) : list string :=
  (fun char => REDIS_KEY_PREFIX +:+ "-" +:+ String char EmptyString) <$> String.list_ascii_of_string char_range.

(** [make_redis_key]: [participant_code[0]] is an [IndexError] on the
    empty string. *)
Definition make_redis_key (participant_code : string) : exn + string :=
  match participant_code with
  | EmptyString => inl (IndexError "string index out of range")
  | String c _ => inr (REDIS_KEY_PREFIX +:+ "-" +:+ String c EmptyString)
  end.

(** The text of the request error of [prepare_next_submit]. *)
Definition not_loaded_message (participant_code : pyval) : string :=
  "Participant " +:+ py_str participant_code +:+ " not loaded in botworker. "
  +:+ "The botworker only stores the most recent " +:+ pretty SESSIONS_PRUNE_LIMIT
  +:+ " sessions, "
  +:+ "and discards older sessions. Or, maybe the botworker "
  +:+ "was restarted after the session was created.".

(** [Worker.prune]: a declared no-op. *)
Definition prune : M Worker unit := ret tt.

(** [Worker.clear_all]: clears [browser_bots] and returns [None]. *)
Definition clear_all : M Worker pyval :=
  fun self => (inr PNone, set_browser_bots (fun _ => ∅) self).

(** [Worker.consume_next_submit]. *)
Definition consume_next_submit (participant_code : pyval) : M Worker pyval :=
  fun self =>
    (* submission = self.prepared_submits.pop(participant_code) *)
    match dict_pop (prepared_submits self) participant_code with
    | inl exc => (inl exc, self)
    | inr (submission, rest) =>
        (* submission.pop('page_class', None) *)
        let submission := dict_pop_default submission "page_class" in
        (inr (PDict submission), set_prepared_submits (fun _ => rest) self)
    end.

(** [Worker.prepare_next_submit]. The lock only brackets the region
    from the cache test to the cache store; it is released on every way
    out and does not change what a single thread computes. The
    dictionary returned and the dictionary cached are one object; no
    caller writes to it before [consume_next_submit] pops it, so one
    value stands for both. *)
Definition prepare_next_submit (participant_code path html : pyval) : M Worker pyval :=
  fun self =>
    (* try: bot = self.browser_bots[participant_code] *)
    match dict_getitem (browser_bots self) participant_code with
    | inl (KeyError _) =>
        (* except KeyError: return {'request_error': ...} *)
        (inr (PDict {[ "request_error" := PStr (not_loaded_message participant_code) ]}),
         self)
    | inl exc => (inl exc, self)
    | inr (code, bot) =>
        (* bot.path = path; bot.html = html *)
        let bot := mkParticipantBot (submits_generator bot) path html in
        let self := set_browser_bots (insert code bot) self in
        (* if participant_code in self.prepared_submits: return {} *)
        if bool_decide (is_Some (prepared_submits self !! code)) then
          (inr (PDict ∅), self)
        else
          (* submission = next(bot.submits_generator) *)
          let '(step, gen) := next (submits_generator bot) in
          let self :=
            set_browser_bots (insert code (mkParticipantBot gen path html)) self in
          let store (submission : pydict) :=
            (* self.prepared_submits[participant_code] = submission
               return submission *)
            (inr (PDict submission),
             set_prepared_submits (insert code submission) self) in
          match step with
          | inl (StopIteration _) => store ∅
          | inl exc => (inl exc, self)
          | inr submission =>
              (* else: submission.pop('page_class') *)
              match dict_pop submission (PStr "page_class") with
              | inl exc => (inl exc, self)
              | inr (_, submission) => store submission
              end
          end
    end.

(** The body of [Worker.ping]. *)
Definition Worker_ping : M Worker pyval :=
  ret (PDict {[ "ok" := PBool true ]}).

(** ** JSON and the Redis server *)

(** What a Redis list holds: the text [json.dumps] produced for a value,
    or bytes that [json.loads] cannot decode. *)
Inductive message_bytes : Type :=
  | JsonText (v : pyval)
  | NotJson (bytes : string).

Fixpoint json_serializable (v : pyval) : bool :=
  match v with
  | PNone | PBool _ | PInt _ | PStr _ => true
  | PList l => forallb json_serializable l
  | PDict d => map_fold (fun _ x acc => json_serializable x && acc) true d
  | PObj _ => false
  end.

Definition json_dumps (v : pyval) : exn + message_bytes :=
  if json_serializable v then inr (JsonText v)
  else inl (TypeError "is not JSON serializable").

(** [json.loads(b.decode('utf-8'))] *)
Definition json_loads (b : message_bytes) : exn + pyval :=
  match b with
  | JsonText v => inr v
  | NotJson _ => inl (ValueError "No JSON object could be decoded")
  end.

(** The server: a list of messages under each key; a key without a list
    and a key with the empty list are the same thing. *)
Abbreviation redis := (gmap string (list message_bytes)).

Definition rpush (conn : redis) (key : string) (value : message_bytes) : redis :=
  <[key := (default [] (conn !! key) ++ [value])%list]> conn.

(** The name under which the client library sends a key: strings as they
    are, integers in decimal; other values are refused. *)
Definition redis_key_of (k : pyval) : exn + string :=
  match k with
  | PStr s => inr s
  | PInt z => inr (pretty z)
  | _ => inl (Exception_ (PStr "DataError: Invalid input"))
  end.

(** One poll of [blpop(keys, timeout)]: the head of the first list, in
    the order of [keys], that is not empty. [None] is the timeout. *)
Fixpoint blpop (conn : redis) (keys : list string)
    : option (string * message_bytes * redis) :=
  match keys with
  | [] => None
  | key :: keys' =>
      match conn !! key with
      | Some (value :: rest) => Some (key, value, <[key := rest]> conn)
      | _ => blpop conn keys'
      end
  end.

(** ** Command dispatch *)

Inductive method : Type :=
  | prepare_next_submit_m
  | consume_next_submit_m
  | initialize_participant_m
  | clear_all_m
  | ping_m.

(** The table of [Worker.get_method]. *)
Definition commands : gmap string method :=
  {[ "prepare_next_submit" := prepare_next_submit_m;
     "consume_next_submit" := consume_next_submit_m;
     "initialize_participant" := initialize_participant_m;
     "clear_all" := clear_all_m;
     "ping" := ping_m ]}.

(** [Worker.get_method]: [commands[command_name]]. *)
Definition get_method (command_name : pyval) : exn + method :=
  match dict_getitem commands command_name with
  | inl exc => inl exc
  | inr (_, m) => inr m
  end.

(** [*args]: the argument must be iterable. *)
Definition star_args (args : pyval) : exn + list pyval :=
  match args with
  | PList l => inr l
  | PStr s => inr ((fun c => PStr (String c EmptyString)) <$> String.list_ascii_of_string s)
  | PDict d => inr ((fun kv => PStr kv.1) <$> map_to_list d)
  | _ => inl (TypeError "argument after * must be an iterable")
  end.

(** [**kwargs]: the argument must be a mapping. *)
Definition star_kwargs (kwargs : pyval) : exn + pydict :=
  match kwargs with
  | PDict d => inr d
  | _ => inl (TypeError "argument after ** must be a mapping")
  end.

(** Binding positional and keyword arguments to the named parameters of
    a method without defaults, [self] being bound already; every
    mismatch is a [TypeError], and so is a keyword named [self]. The
    text names the kind of mismatch; when a call has several, Python
    reports the one it meets first, which may be another. *)
Fixpoint bind_params (params : list string) (args : list pyval) (kwargs : pydict)
    : exn + list pyval :=
  match params, args with
  | [], [] =>
      if bool_decide (kwargs = ∅) then inr []
      else inl (TypeError "got an unexpected keyword argument")
  | [], _ :: _ => inl (TypeError "takes fewer positional arguments")
  | p :: params', a :: args' =>
      match kwargs !! p with
      | Some _ => inl (TypeError "got multiple values for argument")
      | None =>
          match bind_params params' args' kwargs with
          | inl exc => inl exc
          | inr vs => inr (a :: vs)
          end
      end
  | p :: params', [] =>
      match kwargs !! p with
      | None => inl (TypeError "missing required argument")
      | Some v =>
          match bind_params params' [] (delete p kwargs) with
          | inl exc => inl exc
          | inr vs => inr (v :: vs)
          end
      end
  end.

(** The named parameters of each method after [self]; [ping] has none
    and collects the rest in its starred parameters. *)
Definition parameters (m : method) : option (list string) :=
  match m with
  | prepare_next_submit_m => Some ["participant_code"; "path"; "html"]
  | consume_next_submit_m => Some ["participant_code"]
  | initialize_participant_m => Some ["participant_code"]
  | clear_all_m => Some []
  | ping_m => None
  end.

Section Dispatcher.

(** [Participant.objects.get(code=...)] followed by
    [ParticipantBot(participant, unittest_case=...)]: the freshly built
    bot of each participant the database knows. *)
Variable Participant_objects : gmap string ParticipantBot.

(** [repr(exc)] and, inside the handler, [traceback.format_exc()]. *)
Variable repr : exn -> string.
Variable format_exc : exn -> string.

(** [Worker.initialize_participant]. *)
Definition initialize_participant (participant_code : pyval) : M Worker pyval :=
  fun self =>
    match dict_getitem Participant_objects participant_code with
    | inl _ => (inl DoesNotExist, self)
    | inr (code, bot) =>
        match prune self with
        | (inl exc, self) => (inl exc, self)
        | (inr _, self) =>
            (inr (PDict {[ "ok" := PBool true ]}),
             set_browser_bots (insert code bot) self)
        end
    end.

(** The call [method( *args, **kwargs )] for the bound method [m]. The
    [arity] branches are there for totality only: [bind_params] returns
    one value for each parameter. [ping] is declared with [self] and two
    starred parameters: they take every positional argument and every
    keyword but one, the keyword [self], which names the parameter the
    bound object already fills and is refused with a [TypeError]. *)
Definition call_method (m : method) (args : list pyval) (kwargs : pydict)
    : M Worker pyval :=
  match m with
  | prepare_next_submit_m =>
      match bind_params ["participant_code"; "path"; "html"] args kwargs with
      | inr [participant_code; path; html] =>
          prepare_next_submit participant_code path html
      | inr _ => raise (TypeError "arity")
      | inl exc => raise exc
      end
  | consume_next_submit_m =>
      match bind_params ["participant_code"] args kwargs with
      | inr [participant_code] => consume_next_submit participant_code
      | inr _ => raise (TypeError "arity")
      | inl exc => raise exc
      end
  | initialize_participant_m =>
      match bind_params ["participant_code"] args kwargs with
      | inr [participant_code] => initialize_participant participant_code
      | inr _ => raise (TypeError "arity")
      | inl exc => raise exc
      end
  | clear_all_m =>
      match bind_params [] args kwargs with
      | inr _ => clear_all
      | inl exc => raise exc
      end
  | ping_m =>
      match kwargs !! "self" with
      | Some _ => raise (TypeError "got multiple values for argument")
      | None => Worker_ping
      end
  end.

(** The body of the [try] in [redis_listen]. *)
Definition invoke (message : pyval) : M Worker pyval :=
  (cmd <- lift_result (py_subscript message "command") ;;
   args <- lift_result (py_get message "args" (PList [])) ;;
   kwargs <- lift_result (py_get message "kwargs" (PDict ∅)) ;;
   method <- lift_result (get_method cmd) ;;
   args <- lift_result (star_args args) ;;
   kwargs <- lift_result (star_kwargs kwargs) ;;
   call_method method args kwargs)%py.

(** The envelope built by the [except Exception] handler. *)
Definition failure_envelope (exc : exn) : pyval :=
  PDict {[ "response_error" := PStr (repr exc);
           "traceback" := PStr (format_exc exc) ]}.

(** What one turn of the [while True] of [redis_listen] does. *)
Inductive listen_outcome : Type :=
  | Idle
  | Served (self : Worker) (conn : redis)
  | Crashed (exc : exn) (self : Worker) (conn : redis).

(** One turn of the loop of [Worker.redis_listen]. [Idle]: every listen
    key is empty and the inner polling loop keeps waiting. [Crashed]: an
    exception left the loop, which ends [redis_listen]. *)
Definition redis_listen_iteration (self : Worker) (conn : redis) : listen_outcome :=
  match blpop conn (redis_listen_keys self) with
  | None => Idle
  | Some (key, message_bytes, conn) =>
      (* message = json.loads(message_bytes.decode('utf-8')) *)
      match json_loads message_bytes with
      | inl exc => Crashed exc self conn
      | inr message =>
          (* response_key = message['response_key'] *)
          match py_subscript message "response_key" with
          | inl exc => Crashed exc self conn
          | inr response_key =>
              (* try: ... except Exception as exc: ... *)
              let '(retval, self) :=
                match invoke message self with
                | (inr retval, self) => (retval, self)
                | (inl exc, self) => (failure_envelope exc, self)
                end in
              (* finally: retval_json = json.dumps(retval or {}) *)
              match json_dumps (py_or retval (PDict ∅)) with
              | inl exc => Crashed exc self conn
              | inr retval_json =>
                  (* self.redis_conn.rpush(response_key, retval_json) *)
                  match redis_key_of response_key with
                  | inl exc => Crashed exc self conn
                  | inr response_key => Served self (rpush conn response_key retval_json)
                  end
              end
          end
      end
  end.

End Dispatcher.

(** ** Key patterns of the Redis server

    [scan_iter(match=...)] filters keys with the server's glob patterns:
    [*] is any run of characters, [?] any one character, [[...]] one
    character of a class (characters, [lo-hi] ranges, [^] for the
    complement), and a backslash takes the next character literally. *)

Inductive class_item : Type :=
  | ClassChar (c : ascii)
  | ClassRange (lo hi : ascii).

Inductive glob_token : Type :=
  | GStar
  | GAny
  | GClass (negated : bool) (items : list class_item)
  | GChar (c : ascii).

(** Reading a pattern; [cls] holds the class being read, if any. *)
Fixpoint glob_tokens (cls : option (bool * list class_item)) (p : list ascii)
    : list glob_token :=
  match p with
  | [] =>
      match cls with
      | None => []
      | Some (neg, items) => [GClass neg items]
      end
  | c :: p' =>
      match cls with
      | None =>
          if Ascii.eqb c "*" then GStar :: glob_tokens None p'
          else if Ascii.eqb c "?" then GAny :: glob_tokens None p'
          else if Ascii.eqb c "[" then
            match p' with
            | c' :: p'' =>
                if Ascii.eqb c' "^" then glob_tokens (Some (true, [])) p''
                else glob_tokens (Some (false, [])) p'
            | [] => glob_tokens (Some (false, [])) p'
            end
          else if Ascii.eqb c "\" then
            match p' with
            | c' :: p'' => GChar c' :: glob_tokens None p''
            | [] => [GChar c]
            end
          else GChar c :: glob_tokens None p'
      | Some (neg, items) =>
          if Ascii.eqb c "]" then GClass neg items :: glob_tokens None p'
          else if Ascii.eqb c "\" then
            match p' with
            | c' :: p'' => glob_tokens (Some (neg, items ++ [ClassChar c'])%list) p''
            | [] => [GClass neg (items ++ [ClassChar c])%list]
            end
          else
            match p' with
            | d :: hi :: p'' =>
                if Ascii.eqb d "-"
                then glob_tokens (Some (neg, items ++ [ClassRange c hi])%list) p''
                else glob_tokens (Some (neg, items ++ [ClassChar c])%list) p'
            | _ => glob_tokens (Some (neg, items ++ [ClassChar c])%list) p'
            end
      end
  end.

Definition class_item_matches (c : ascii) (item : class_item) : bool :=
  match item with
  | ClassChar c' => Ascii.eqb c' c
  | ClassRange lo hi =>
      let a := N_of_ascii lo in
      let b := N_of_ascii hi in
      let x := N_of_ascii c in
      ((N.min a b <=? x) && (x <=? N.max a b))%N
  end.

Fixpoint tokens_match (ts : list glob_token) : list ascii -> bool :=
  match ts with
  | [] => fun s => match s with [] => true | _ :: _ => false end
  | GStar :: ts' =>
      fix star (s : list ascii) : bool :=
        tokens_match ts' s || match s with [] => false | _ :: s' => star s' end
  | GAny :: ts' =>
      fun s => match s with [] => false | _ :: s' => tokens_match ts' s' end
  | GClass neg items :: ts' =>
      fun s =>
        match s with
        | [] => false
        | c :: s' =>
            xorb neg (existsb (class_item_matches c) items) && tokens_match ts' s'
        end
  | GChar c :: ts' =>
      fun s =>
        match s with
        | [] => false
        | c' :: s' => Ascii.eqb c c' && tokens_match ts' s'
        end
  end.

Definition glob_match (pattern key : string) : bool :=
  tokens_match (glob_tokens None (String.list_ascii_of_string pattern))
               (String.list_ascii_of_string key).

(** A character that has no meaning of its own inside a character
    class: none of the closing bracket, the backslash, the dash and the
    caret. Letters and digits are plain. *)
Definition plain_char (c : ascii) : bool :=
  negb (Ascii.eqb c "]" || Ascii.eqb c "\" || Ascii.eqb c "-" || Ascii.eqb c "^").

(** A character that stands for itself outside a character class. *)
Definition literal_char (c : ascii) : bool :=
  negb (Ascii.eqb c "*" || Ascii.eqb c "?" || Ascii.eqb c "[" || Ascii.eqb c "\").

Section Charset.

(** [otree.common_internal.SESSION_CODE_CHARSET]: the characters a
    participant code is drawn from. *)
Variable SESSION_CODE_CHARSET : string.

(** [Worker.__init__]; [char_range or SESSION_CODE_CHARSET]. *)
Definition Worker_init (char_range : option string) : Worker :=
  let char_range :=
    match char_range with
    | Some cr => if String.eqb cr EmptyString then SESSION_CODE_CHARSET else cr
    | None => SESSION_CODE_CHARSET
    end in
  mkWorker ∅ ∅ (listen_keys_of char_range).

(** The pattern handed to [scan_iter]:
    ['{}[{}]*'.format(REDIS_KEY_PREFIX, char_range)]. *)
Definition flush_pattern (char_range : string) : string :=
  REDIS_KEY_PREFIX +:+ "[" +:+ char_range +:+ "]*".

(** [redis_flush_bots]: deletes every key the pattern matches. *)
Definition redis_flush_bots (conn : redis) (char_range : option string) : redis :=
  let char_range :=
    match char_range with
    | Some cr => if String.eqb cr EmptyString then SESSION_CODE_CHARSET else cr
    | None => SESSION_CODE_CHARSET
    end in
  filter (fun kv => glob_match (flush_pattern char_range) kv.1 = false) conn.

End Charset.

(** ** The request side: processes, the server between them, and the proxy *)

(** [k in v] for a string [k]. *)
Fixpoint is_prefix (p s : list ascii) : bool :=
  match p, s with
  | [], _ => true
  | _ :: _, [] => false
  | a :: p', b :: s' => Ascii.eqb a b && is_prefix p' s'
  end.

Fixpoint is_substring (p s : list ascii) : bool :=
  is_prefix p s || match s with [] => false | _ :: s' => is_substring p s' end.

Definition py_contains (k : string) (v : pyval) : exn + bool :=
  match v with
  | PDict d => inr (bool_decide (is_Some (d !! k)))
  | PList l =>
      inr (existsb (fun x => match x with PStr s => String.eqb s k | _ => false end) l)
  | PStr s =>
      inr (is_substring (String.list_ascii_of_string k) (String.list_ascii_of_string s))
  | _ => inl (TypeError "argument is not iterable")
  end.

(** What a request handler runs against: the two settings of
    [otree.common_internal] and of this module, the Redis server, and the
    botworker process on the other side of it. [schedule] says, for each
    blocking pop a handler makes, how many turns of its loop the
    botworker completes before the pop times out. *)
Record world : Type := mkWorld {
  USE_REDIS : bool;
  browser_bot_worker : option Worker;
  server : redis;
  botworker : option Worker;
  schedule : list nat
}.

Definition set_server (conn : redis) (w : world) : world :=
  mkWorld (USE_REDIS w) (browser_bot_worker w) conn (botworker w) (schedule w).
Definition set_botworker (b : option Worker) (w : world) : world :=
  mkWorld (USE_REDIS w) (browser_bot_worker w) (server w) b (schedule w).
Definition set_schedule (sch : list nat) (w : world) : world :=
  mkWorld (USE_REDIS w) (browser_bot_worker w) (server w) (botworker w) sch.
Definition set_browser_bot_worker (b : option Worker) (w : world) : world :=
  mkWorld (USE_REDIS w) b (server w) (botworker w) (schedule w).

(** [self.participant.code] and [self.path] of an [EphemeralBrowserBot]. *)
Record EphemeralBrowserBot : Type := mkEphemeralBrowserBot {
  participant_code : string;
  request_path : pyval
}.

(** The double-quote character of the message below. *)
Definition double_quote : ascii := ascii_of_nat 34.

Definition ping_failed_message : string :=
  "Ping to botworker failed. "
  +:+ "If you want to use browser bots, "
  +:+ "you need to be running the botworker."
  +:+ "Otherwise, set (" +:+ String double_quote "use_browser_bots"
  +:+ String double_quote ": False) in the session config "
  +:+ "in settings.py.".

Definition no_submission_message : string :=
  "botworker is running but did not return a submission.".

(** The error a timed-out request ends with, given what the blocking
    pop of the liveness probe returned. *)
Definition timeout_diagnosis (probe : option message_bytes) : exn :=
  match probe with
  | None => Exception_ (PStr ping_failed_message)
  | Some _ => Exception_ (PStr no_submission_message)
  end.

(** The [response_key] and the [msg] dictionary of each kind of request. *)
Definition ping_response_key (participant_code : string) : string :=
  REDIS_KEY_PREFIX +:+ "-ping-" +:+ participant_code.

Definition ping_msg (participant_code : string) : pyval :=
  PDict {[ "command" := PStr "ping";
           "response_key" := PStr (ping_response_key participant_code) ]}.

Definition prepare_response_key (participant_code : string) : string :=
  REDIS_KEY_PREFIX +:+ "-prepare_next_submit-" +:+ participant_code.

Definition prepare_msg (self : EphemeralBrowserBot) (html : pyval) : pyval :=
  PDict {[ "command" := PStr "prepare_next_submit";
           "kwargs" := PDict {[ "participant_code" := PStr (participant_code self);
                                "path" := request_path self;
                                "html" := html ]};
           "response_key" := PStr (prepare_response_key (participant_code self)) ]}.

Definition consume_response_key (participant_code : string) : string :=
  REDIS_KEY_PREFIX +:+ "-consume_next_submit-" +:+ participant_code.

Definition consume_msg (self : EphemeralBrowserBot) : pyval :=
  PDict {[ "command" := PStr "consume_next_submit";
           "kwargs" := PDict {[ "participant_code" := PStr (participant_code self) ]};
           "response_key" := PStr (consume_response_key (participant_code self)) ]}.

Section Proxy.

Variable Participant_objects : gmap string ParticipantBot.
Variable repr : exn -> string.
Variable format_exc : exn -> string.

(** One turn of the botworker process, when it is running and has a
    message waiting; a crash ends the process. *)
Definition botworker_turn (w : world) : option world :=
  match botworker w with
  | None => None
  | Some self =>
      match redis_listen_iteration Participant_objects repr format_exc self (server w) with
      | Idle => None
      | Served self' conn => Some (set_botworker (Some self') (set_server conn w))
      | Crashed _ _ conn => Some (set_botworker None (set_server conn w))
      end
  end.

(** Blocking on [key] while the botworker takes up to [turns] turns. *)
Fixpoint await (turns : nat) (key : string) (w : world)
    : option message_bytes * world :=
  match blpop (server w) [key] with
  | Some (_, value, conn) => (Some value, set_server conn w)
  | None =>
      match turns with
      | O => (None, w)
      | S turns' =>
          match botworker_turn w with
          | Some w' => await turns' key w'
          | None => (None, w)
          end
      end
  end.

(** [redis_conn.blpop(key, timeout=...)] in a request handler. *)
Definition client_blpop (key : string) : M world (option message_bytes) :=
  fun w =>
    let '(result, w') := await (hd O (schedule w)) key (set_schedule (tl (schedule w)) w) in
    (inr result, w').

(** [redis_conn.rpush(key, value)] in a request handler. *)
Definition client_rpush (key : string) (value : message_bytes) : M world unit :=
  modify (fun w => set_server (rpush (server w) key value) w).

(** The module-level [ping]. *)
Definition ping (participant_code : string) : M world unit :=
  (let response_key := ping_response_key participant_code in
   let msg := ping_msg participant_code in
   key <- lift_result (make_redis_key participant_code) ;;
   msg_json <- lift_result (json_dumps msg) ;;
   client_rpush key msg_json ;;;
   result <- client_blpop response_key ;;
   match result with
   | None => raise (Exception_ (PStr ping_failed_message))
   | Some _ => ret tt
   end)%py.

(** [EphemeralBrowserBot.prepare_next_submit_redis]. *)
Definition prepare_next_submit_redis (self : EphemeralBrowserBot) (html : pyval)
    : M world pyval :=
  (let participant_code := participant_code self in
   let response_key := prepare_response_key participant_code in
   let msg := prepare_msg self html in
   key <- lift_result (make_redis_key participant_code) ;;
   msg_json <- lift_result (json_dumps msg) ;;
   client_rpush key msg_json ;;;
   result <- client_blpop response_key ;;
   match result with
   | None =>
       (* ping will raise if it times out *)
       ping participant_code ;;;
       raise (Exception_ (PStr no_submission_message))
   | Some submit_bytes => lift_result (json_loads submit_bytes)
   end)%py.

(** [EphemeralBrowserBot.prepare_next_submit_in_process]. *)
Definition prepare_next_submit_in_process (self : EphemeralBrowserBot) (html : pyval)
    : M world pyval :=
  fun w =>
    match browser_bot_worker w with
    | None => (inl (AttributeError "prepare_next_submit"), w)
    | Some worker =>
        let '(result, worker) :=
          prepare_next_submit (PStr (participant_code self)) (request_path self) html
                              worker in
        (result, set_browser_bot_worker (Some worker) w)
    end.

(** [EphemeralBrowserBot.prepare_next_submit]; it returns [None]. *)
Definition EphemeralBrowserBot_prepare_next_submit (self : EphemeralBrowserBot)
    (html : pyval) : M world unit :=
  (use_redis <- (fun w => (inr (USE_REDIS w), w)) ;;
   result <-
     (if use_redis : bool then
        result <- prepare_next_submit_redis self html ;;
        has_error <- lift_result (py_contains "response_error" result) ;;
        if has_error : bool then
          traceback <- lift_result (py_subscript result "traceback") ;;
          raise (Exception_ traceback)
        else ret result
      else prepare_next_submit_in_process self html) ;;
   has_error <- lift_result (py_contains "request_error" result) ;;
   if has_error : bool then
     request_error <- lift_result (py_subscript result "request_error") ;;
     raise (AssertionError request_error)
   else ret tt)%py.

(** [EphemeralBrowserBot.get_next_post_data_redis]. *)
Definition get_next_post_data_redis (self : EphemeralBrowserBot) : M world pyval :=
  (let participant_code := participant_code self in
   let response_key := consume_response_key participant_code in
   let msg := consume_msg self in
   key <- lift_result (make_redis_key participant_code) ;;
   msg_json <- lift_result (json_dumps msg) ;;
   client_rpush key msg_json ;;;
   result <- client_blpop response_key ;;
   match result with
   | None =>
       (* ping will raise if it times out *)
       ping participant_code ;;;
       raise (Exception_ (PStr no_submission_message))
   | Some submit_bytes => lift_result (json_loads submit_bytes)
   end)%py.

(** [browser_bot_worker.prepared_submits.pop(self.participant.code)] *)
Definition pop_prepared_in_process (self : EphemeralBrowserBot) : M world pyval :=
  fun w =>
    match browser_bot_worker w with
    | None => (inl (AttributeError "prepared_submits"), w)
    | Some worker =>
        match dict_pop (prepared_submits worker) (PStr (participant_code self)) with
        | inl exc => (inl exc, w)
        | inr (submission, rest) =>
            (inr (PDict submission),
             set_browser_bot_worker
               (Some (set_prepared_submits (fun _ => rest) worker)) w)
        end
    end.

(** [EphemeralBrowserBot.get_next_post_data]. *)
Definition get_next_post_data (self : EphemeralBrowserBot) : M world pyval :=
  (use_redis <- (fun w => (inr (USE_REDIS w), w)) ;;
   submission <-
     (if use_redis : bool then get_next_post_data_redis self
      else pop_prepared_in_process self) ;;
   if py_truthy submission then lift_result (py_subscript submission "post_data")
   else raise (StopIteration "No more submits"))%py.

End Proxy.

(** ** Initialising a bot from a request handler *)

Definition initialize_response_key (participant_code : string) : string :=
  REDIS_KEY_PREFIX +:+ "-initialize-" +:+ participant_code.

Definition initialize_msg (participant_code : string) : pyval :=
  PDict {[ "command" := PStr "initialize_participant";
           "kwargs" := PDict {[ "participant_code" := PStr participant_code ]};
           "response_key" := PStr (initialize_response_key participant_code) ]}.

(** The text of [initialize_bot_redis] on a timeout, with [timeout = 1]
    formatted in. *)
Definition could_not_initialize_message : string :=
  "botworker is running but could not initialize the session. "
  +:+ "within " +:+ pretty 1%Z +:+ " seconds.".

Definition error_occurred_message : string :=
  "An error occurred. See the botworker output for the traceback.".

Section Initialize.

Variable Participant_objects : gmap string ParticipantBot.
Variable repr : exn -> string.
Variable format_exc : exn -> string.

(** [initialize_bot_redis]. *)
Definition initialize_bot_redis (participant_code : string) : M world pyval :=
  (let response_key := initialize_response_key participant_code in
   let msg := initialize_msg participant_code in
   (* ping will raise if it times out *)
   ping Participant_objects repr format_exc participant_code ;;;
   key <- lift_result (make_redis_key participant_code) ;;
   msg_json <- lift_result (json_dumps msg) ;;
   client_rpush key msg_json ;;;
   result <- client_blpop Participant_objects repr format_exc response_key ;;
   match result with
   | None => raise (Exception_ (PStr could_not_initialize_message))
   | Some submit_bytes =>
       value <- lift_result (json_loads submit_bytes) ;;
       has_error <- lift_result (py_contains "response_error" value) ;;
       if has_error : bool then raise (Exception_ (PStr error_occurred_message))
       else ret (PDict {[ "ok" := PBool true ]})
   end)%py.

(** [initialize_bot_in_process]; it returns [None]. *)
Definition initialize_bot_in_process (participant_code : string) : M world unit :=
  fun w =>
    match browser_bot_worker w with
    | None => (inl (AttributeError "initialize_participant"), w)
    | Some worker =>
        match initialize_participant Participant_objects (PStr participant_code) worker with
        | (inl exc, worker) => (inl exc, set_browser_bot_worker (Some worker) w)
        | (inr _, worker) => (inr tt, set_browser_bot_worker (Some worker) w)
        end
    end.

(** [initialize_bot]; it returns [None]. *)
Definition initialize_bot (participant_code : string) : M world unit :=
  (use_redis <- (fun w => (inr (USE_REDIS w), w)) ;;
   if use_redis : bool then
     initialize_bot_redis participant_code ;;; ret tt
   else initialize_bot_in_process participant_code)%py.

End Initialize.

(** ** The receive loop as a whole *)

(** Where [redis_listen] stands after some turns: still in its loop, or
    left by an exception. *)
Inductive listen_status : Type :=
  | Listening
  | Stopped (exc : exn).

Section Listen.

Variable Participant_objects : gmap string ParticipantBot.
Variable repr : exn -> string.
Variable format_exc : exn -> string.

(** [Worker.redis_listen], for at most [turns] turns of its
    [while True]. With every listen key empty the loop only polls, and
    worker and server stay as they are. *)
Fixpoint redis_listen (turns : nat) (self : Worker) (conn : redis)
    : listen_status * Worker * redis :=
  match turns with
  | O => (Listening, self, conn)
  | S turns' =>
      match redis_listen_iteration Participant_objects repr format_exc self conn with
      | Idle => (Listening, self, conn)
      | Served self' conn' => redis_listen turns' self' conn'
      | Crashed exc self' conn' => (Stopped exc, self', conn')
      end
  end.

(** The response the loop pushes for the outcome of an invocation. *)
Definition response_to (outcome : exn + pyval) : pyval :=
  match outcome with
  | inl exc => failure_envelope repr format_exc exc
  | inr retval => py_or retval (PDict ∅)
  end.

End Listen.

(** Every list under one of [keys] is empty. *)
Definition idle_for (conn : redis) (keys : list string) : Prop :=
  forall k, k ∈ keys -> default [] (conn !! k) = [].

(** The world after a request on [key] was served by the botworker and
    its response taken from [rk]: both lists are empty again. *)
Definition after_round_trip (w : world) (key rk : string)
    (request response : message_bytes) (worker' : Worker) (later : list nat) : world :=
  mkWorld (USE_REDIS w) (browser_bot_worker w)
    (<[rk := []]> (rpush (<[key := []]> (rpush (server w) key request)) rk response))
    (Some worker') later.

(** The botworker of [w] is running as [worker], was built for
    [char_range], listens on the input channel [key] of [code], and has
    nothing waiting on its listen keys. *)
Definition serving (w : world) (worker : Worker) (char_range code key : string) : Prop :=
  botworker w = Some worker /\
  redis_listen_keys worker = listen_keys_of char_range /\
  make_redis_key code = inr key /\
  key ∈ listen_keys_of char_range /\
  idle_for (server w) (listen_keys_of char_range).

(** The two checks the proxy's [prepare_next_submit] makes on a result,
    as functions of the result: [if 'response_error' in result: raise
    Exception(result['traceback'])] and [if 'request_error' in result:
    raise AssertionError(result['request_error'])]. *)
Definition check_response_error (result : pyval) : exn + pyval :=
  match py_contains "response_error" result with
  | inl exc => inl exc
  | inr true =>
      match py_subscript result "traceback" with
      | inl exc => inl exc
      | inr traceback => inl (Exception_ traceback)
      end
  | inr false => inr result
  end.

Definition check_request_error (result : pyval) : exn + unit :=
  match py_contains "request_error" result with
  | inl exc => inl exc
  | inr true =>
      match py_subscript result "request_error" with
      | inl exc => inl exc
      | inr request_error => inl (AssertionError request_error)
      end
  | inr false => inr tt
  end.

(** What [get_next_post_data] makes of a submission: [if submission:
    return submission['post_data'] else: raise StopIteration(...)]. *)
Definition post_data_of (submission : pyval) : exn + pyval :=
  if py_truthy submission then py_subscript submission "post_data"
  else inl (StopIteration "No more submits").

(** ** Invariants of the worker *)

(** No cached submission carries a ['page_class'] entry. *)
Definition cache_untagged (self : Worker) : Prop :=
  forall (code : string) (submission : pydict),
    prepared_submits self !! code = Some submission ->
    submission !! "page_class" = None.

(** What a worker state keeps over a call: its listen keys, and a
    cache without ['page_class']. *)
Definition kept (self self' : Worker) : Prop :=
  redis_listen_keys self' = redis_listen_keys self /\
  (cache_untagged self -> cache_untagged self').

(** ** otree.management.commands.startproject *)

Module Startproject.

(** [c.lower()] for one character; only the letters [A] to [Z] change. *)
Definition lower (c : ascii) : ascii :=
  let n := N_of_ascii c in
  if ((65 <=? n) && (n <=? 90))%N then ascii_of_N (n + 32) else c.

(** The prompt loop of [Command.handle]. [inputs] are the lines that
    [input(...)] will return, in order; at the end of them [input]
    raises [EOFError], which is [None] here. The result is the final
    [answer] and the lines not read. *)
Fixpoint ask (inputs : list string) : option string * list string :=
  match inputs with
  | [] => (None, [])
  | line :: rest =>
      match line with
      | EmptyString =>
          (* if not answer: answer = "y"; break *)
          (Some "y", rest)
      | String c _ =>
          (* answer = answer[0].lower() *)
          let answer := String (lower c) EmptyString in
          (* while not answer or answer not in "yn" *)
          if is_substring (String.list_ascii_of_string answer)
                          (String.list_ascii_of_string "yn")
          then (Some answer, rest)
          else ask rest
      end
  end.

(** The answer a line gives, if it gives one: the empty line stands
    for yes, otherwise the first character decides, in either case. *)
Definition verdict (line : string) : option string :=
  match line with
  | EmptyString => Some "y"
  | String c _ =>
      if Ascii.eqb (lower c) "y" then Some "y"
      else if Ascii.eqb (lower c) "n" then Some "n"
      else None
  end.

Definition sample_games_location : string :=
  "https://github.com/oTree-org/oTree/archive/master.zip".

Section Handle.

(** [os.path.join(os.path.dirname(otree.__file__), 'project_template')] *)
Variable project_template_location : string.

(** [Command.handle] up to the call of the parent's [handle]: the
    options handed on, and the lines not read. [None] is the [EOFError]
    of [input]. *)
Definition handle_options (options : pydict) (inputs : list string)
    : option pydict * list string :=
  match ask inputs with
  | (None, rest) => (None, rest)
  | (Some answer, rest) =>
      let location :=
        if String.eqb answer "y" then sample_games_location
        else project_template_location in
      (* if options.get('template', None) is None *)
      match default PNone (options !! "template") with
      | PNone => (Some (<["template" := PStr location]> options), rest)
      | _ => (Some options, rest)
      end
  end.

End Handle.

(** The text [render_runtime] writes:
    ["." .join(map(str, sys.version_info[:3])) + "\n"]. *)
Definition runtime_version (major minor micro : Z) : string :=
  pretty major +:+ "." +:+ pretty minor +:+ "." +:+ pretty micro
  +:+ String (ascii_of_nat 10) EmptyString.

End Startproject.

(** * Properties *)

(** ** Lookup lemmas shared by the proofs *)

Lemma dict_getitem_Some {A} (d : gmap string A) (s : string) (a : A) :
  d !! s = Some a -> dict_getitem d (PStr s) = inr (s, a).
Proof. intros H. unfold dict_getitem. by rewrite H. Qed.

Lemma dict_getitem_None {A} (d : gmap string A) (s : string) :
  d !! s = None -> dict_getitem d (PStr s) = inl (KeyError (PStr s)).
Proof. intros H. unfold dict_getitem. by rewrite H. Qed.

Lemma dict_pop_Some {A} (d : gmap string A) (s : string) (a : A) :
  d !! s = Some a -> dict_pop d (PStr s) = inr (a, delete s d).
Proof. intros H. unfold dict_pop. by rewrite (dict_getitem_Some _ _ _ H). Qed.

Lemma dict_pop_None {A} (d : gmap string A) (s : string) :
  d !! s = None -> dict_pop d (PStr s) = inl (KeyError (PStr s)).
Proof. intros H. unfold dict_pop. by rewrite (dict_getitem_None _ _ H). Qed.

(** What [prepare_next_submit] does when a bot is loaded and an entry is
    already cached: only the page is recorded. *)
Lemma prepare_next_submit_cached self code bot entry path html :
  browser_bots self !! code = Some bot ->
  prepared_submits self !! code = Some entry ->
  prepare_next_submit (PStr code) path html self =
    (inr (PDict ∅),
     set_browser_bots (insert code (mkParticipantBot (submits_generator bot) path html)) self).
Proof.
  intros Hbot Hentry. unfold prepare_next_submit.
  rewrite (dict_getitem_Some _ _ _ Hbot). cbn.
  rewrite Hentry. rewrite bool_decide_eq_true_2; [done | by eexists].
Qed.

(** ... and when nothing is cached yet: the generator takes one step. *)
Lemma prepare_next_submit_fresh self code bot path html :
  browser_bots self !! code = Some bot ->
  prepared_submits self !! code = None ->
  prepare_next_submit (PStr code) path html self =
    let '(step, gen) := next (submits_generator bot) in
    let self1 :=
      set_browser_bots (insert code (mkParticipantBot gen path html))
        (set_browser_bots
           (insert code (mkParticipantBot (submits_generator bot) path html)) self) in
    let store (submission : pydict) :=
      (inr (PDict submission), set_prepared_submits (insert code submission) self1) in
    match step with
    | inl (StopIteration _) => store ∅
    | inl exc => (inl exc, self1)
    | inr submission =>
        match submission !! "page_class" with
        | None => (inl (KeyError (PStr "page_class")), self1)
        | Some _ => store (delete "page_class" submission)
        end
    end.
Proof.
  intros Hbot Hentry. unfold prepare_next_submit.
  rewrite (dict_getitem_Some _ _ _ Hbot). cbn.
  rewrite Hentry. rewrite bool_decide_eq_false_2; [| by intros [? ?]].
  destruct (next (submits_generator bot)) as [[exc|submission] gen]; [done|].
  destruct (submission !! "page_class") as [v|] eqn:Hpc.
  - by rewrite (dict_pop_Some _ _ _ Hpc).
  - by rewrite (dict_pop_None _ _ Hpc).
Qed.

(** What [consume_next_submit] does on a cached entry, and without one. *)
Lemma consume_next_submit_cached (self : Worker) (code : string) (submission : pydict) :
  prepared_submits self !! code = Some submission ->
  consume_next_submit (PStr code) self =
    (inr (PDict (delete "page_class" submission)),
     set_prepared_submits (delete code) self).
Proof.
  intros Hentry. unfold consume_next_submit.
  by rewrite (dict_pop_Some _ _ _ Hentry).
Qed.

Lemma consume_next_submit_missing (self : Worker) (code : string) :
  prepared_submits self !! code = None ->
  consume_next_submit (PStr code) self = (inl (KeyError (PStr code)), self).
Proof.
  intros Hnone. unfold consume_next_submit.
  by rewrite (dict_pop_None _ _ Hnone).
Qed.

(** ** C3 *)

(** C3. For a client identifier without a loaded session,
    [prepare_next_submit] returns (it does not raise) the dictionary
    holding the request error, whose text says that the participant is
    not loaded and why that may be, and the worker is left exactly as it
    was: no generator is advanced and no cache entry is created. *)
Theorem prepare_next_submit_not_loaded (self : Worker) (code : string) (path html : pyval) :
  browser_bots self !! code = None ->
  prepare_next_submit (PStr code) path html self =
    (inr (PDict {[ "request_error" :=
        PStr ("Participant " +:+ code +:+ " not loaded in botworker. "
              +:+ "The botworker only stores the most recent 50 sessions, "
              +:+ "and discards older sessions. Or, maybe the botworker "
              +:+ "was restarted after the session was created.") ]}),
     self).
Proof.
  intros Hnone. unfold prepare_next_submit.
  by rewrite (dict_getitem_None _ _ Hnone).
Qed.

Lemma prepare_next_submit_not_loaded_witness :
  prepare_next_submit (PStr "abc123") (PStr "/page1") (PStr "<html/>")
      (mkWorker ∅ {[ "zzz" := ∅ ]} []) =
    (inr (PDict {[ "request_error" :=
        PStr ("Participant abc123 not loaded in botworker. "
              +:+ "The botworker only stores the most recent 50 sessions, "
              +:+ "and discards older sessions. Or, maybe the botworker "
              +:+ "was restarted after the session was created.") ]}),
     mkWorker ∅ {[ "zzz" := ∅ ]} []).
Proof.
  apply (prepare_next_submit_not_loaded (mkWorker ∅ {[ "zzz" := ∅ ]} []) "abc123").
  reflexivity.
Defined.

(** ** C1 *)

(** C1, as stated, fails: a session is active, yet two calls in a row
    advance the generator twice and the second call returns a
    submission, not the empty acknowledgement. The first submission the
    generator yields carries no ['page_class'], so the first call raises
    after the generator has moved and before anything is cached. *)
Lemma prepare_next_submit_twice_advances_twice :
  let first := {[ "post_data" := PInt 1 ]} : pydict in
  let second := {[ "page_class" := PObj "Page"; "post_data" := PInt 2 ]} : pydict in
  let bot := mkParticipantBot [GenYield first; GenYield second] PNone PNone in
  let self := mkWorker {[ "abc" := bot ]} ∅ [] in
  let call1 := prepare_next_submit (PStr "abc") PNone PNone self in
  let call2 := prepare_next_submit (PStr "abc") PNone PNone (snd call1) in
  is_Some (browser_bots self !! "abc") /\
  fst call1 = inl (KeyError (PStr "page_class")) /\
  generator_of (snd call1) "abc" = Some [GenYield second] /\
  fst call2 = inr (PDict {[ "post_data" := PInt 2 ]}) /\
  fst call2 <> inr (PDict ∅) /\
  generator_of (snd call2) "abc" = Some [] /\
  prepared_submits (snd call2) <> prepared_submits (snd call1).
Proof.
  cbv zeta. repeat split.
  - by eexists.
  - intros H.
    apply (f_equal (fun r => match r with
                             | inr (PDict d) => from_option (fun _ => true) false (d !! "post_data")
                             | _ => false
                             end)) in H.
    vm_compute in H. discriminate H.
  - intros H. apply (f_equal (fun cache => from_option (fun _ => true) false (cache !! "abc"))) in H.
    vm_compute in H. discriminate H.
Qed.

(** C1, amended. When a session is active and the first call returns
    (the generator was exhausted, or yielded a submission carrying
    ['page_class'], or an entry was cached already), an entry is cached
    after it, and a second call without a consume in between returns the
    empty acknowledgement, leaves the whole cache and the generator as
    the first call left them; so the two calls together advance the
    generator exactly once when nothing was cached before them. *)
Theorem prepare_next_submit_idempotent
    (self self1 : Worker) (code : string) (path html path' html' r1 : pyval) :
  is_Some (browser_bots self !! code) ->
  prepare_next_submit (PStr code) path html self = (inr r1, self1) ->
  is_Some (prepared_submits self1 !! code) /\
  fst (prepare_next_submit (PStr code) path' html' self1) = inr (PDict ∅) /\
  prepared_submits (snd (prepare_next_submit (PStr code) path' html' self1))
    = prepared_submits self1 /\
  generator_of (snd (prepare_next_submit (PStr code) path' html' self1)) code
    = generator_of self1 code /\
  (prepared_submits self !! code = None ->
   generator_of self1 code = (fun g => snd (next g)) <$> generator_of self code).
Proof.
  intros [bot Hbot] Hcall.
  assert (Hg0 : generator_of self code = Some (submits_generator bot))
    by (unfold generator_of; by rewrite Hbot).
  rewrite Hg0. clear Hg0.
  assert (Hsecond : forall self1 bot1 entry,
             browser_bots self1 !! code = Some bot1 ->
             prepared_submits self1 !! code = Some entry ->
             fst (prepare_next_submit (PStr code) path' html' self1) = inr (PDict ∅) /\
             prepared_submits (snd (prepare_next_submit (PStr code) path' html' self1))
               = prepared_submits self1 /\
             generator_of (snd (prepare_next_submit (PStr code) path' html' self1)) code
               = generator_of self1 code).
  { intros s b e Hb He. rewrite (prepare_next_submit_cached _ _ _ _ _ _ Hb He).
    cbn. repeat split. unfold generator_of. cbn.
    by rewrite lookup_insert_eq, Hb. }
  destruct (prepared_submits self !! code) as [entry|] eqn:Hentry.
  - rewrite (prepare_next_submit_cached _ _ _ _ _ _ Hbot Hentry) in Hcall.
    injection Hcall as _ <-.
    assert (Hb : browser_bots
                   (set_browser_bots
                      (insert code (mkParticipantBot (submits_generator bot) path html)) self)
                   !! code = Some (mkParticipantBot (submits_generator bot) path html))
      by (cbn; apply lookup_insert_eq).
    destruct (Hsecond _ _ entry Hb Hentry) as (H1 & H2 & H3).
    split; [by eexists|]. repeat split; try done.
  - rewrite (prepare_next_submit_fresh _ _ _ _ _ Hbot Hentry) in Hcall.
    cbn [fmap option_fmap option_map].
    destruct (next (submits_generator bot)) as [step gen] eqn:Hnext. cbn [snd].
    assert (Hstore : forall submission self1,
               self1 = set_prepared_submits (insert code submission)
                         (set_browser_bots (insert code (mkParticipantBot gen path html))
                            (set_browser_bots
                               (insert code
                                  (mkParticipantBot (submits_generator bot) path html)) self)) ->
               browser_bots self1 !! code = Some (mkParticipantBot gen path html) /\
               prepared_submits self1 !! code = Some submission).
    { intros sub s ->. cbn. by rewrite !lookup_insert_eq. }
    assert (Hgoal : forall submission self1,
               self1 = set_prepared_submits (insert code submission)
                         (set_browser_bots (insert code (mkParticipantBot gen path html))
                            (set_browser_bots
                               (insert code
                                  (mkParticipantBot (submits_generator bot) path html)) self)) ->
               is_Some (prepared_submits self1 !! code) /\
               fst (prepare_next_submit (PStr code) path' html' self1) = inr (PDict ∅) /\
               prepared_submits (snd (prepare_next_submit (PStr code) path' html' self1))
                 = prepared_submits self1 /\
               generator_of (snd (prepare_next_submit (PStr code) path' html' self1)) code
                 = generator_of self1 code /\
               (@None pydict = None -> generator_of self1 code = Some gen)).
    { intros sub s Hs. destruct (Hstore _ _ Hs) as [Hb He].
      destruct (Hsecond _ _ _ Hb He) as (H1 & H2 & H3).
      split; [by eexists|]. repeat split; try done.
      intros _. unfold generator_of. by rewrite Hb. }
    destruct step as [exc|submission].
    + destruct exc; try discriminate Hcall.
      injection Hcall as _ <-. by apply (Hgoal ∅).
    + destruct (submission !! "page_class"); [|discriminate Hcall].
      injection Hcall as _ <-. by apply (Hgoal (delete "page_class" submission)).
Qed.

Lemma prepare_next_submit_idempotent_witness :
  let submission := {[ "page_class" := PObj "Page"; "post_data" := PInt 2 ]} : pydict in
  let bot := mkParticipantBot [GenYield submission; GenYield submission] PNone PNone in
  let self := mkWorker {[ "abc" := bot ]} ∅ [] in
  let self1 := snd (prepare_next_submit (PStr "abc") (PStr "/p") (PStr "h") self) in
  fst (prepare_next_submit (PStr "abc") (PStr "/p") (PStr "h2") self1) = inr (PDict ∅) /\
  generator_of self1 "abc" = (fun g => snd (next g)) <$> generator_of self "abc".
Proof.
  cbv zeta.
  pose proof (prepare_next_submit_idempotent
    (mkWorker {[ "abc" := mkParticipantBot
        [GenYield {[ "page_class" := PObj "Page"; "post_data" := PInt 2 ]};
         GenYield {[ "page_class" := PObj "Page"; "post_data" := PInt 2 ]}] PNone PNone ]} ∅ [])
    _ "abc" (PStr "/p") (PStr "h") (PStr "/p") (PStr "h2")
    (PDict {[ "post_data" := PInt 2 ]})
    ltac:(by eexists) ltac:(vm_compute; reflexivity)) as (_ & H2 & _ & _ & H5).
  split; [exact H2 | exact (H5 eq_refl)].
Defined.

(** ** C4 *)

(** C4. When an entry is cached for the identifier,
    [consume_next_submit] returns it (less its ['page_class']) and
    removes that entry and nothing else; consuming again straight away
    raises [KeyError] instead of returning. *)
Theorem consume_next_submit_removes_entry
    (self : Worker) (code : string) (submission : pydict) :
  prepared_submits self !! code = Some submission ->
  let self1 := set_prepared_submits (delete code) self in
  consume_next_submit (PStr code) self =
    (inr (PDict (delete "page_class" submission)), self1) /\
  prepared_submits self1 !! code = None /\
  (forall other, other <> code ->
     prepared_submits self1 !! other = prepared_submits self !! other) /\
  browser_bots self1 = browser_bots self /\
  consume_next_submit (PStr code) self1 = (inl (KeyError (PStr code)), self1).
Proof.
  intros Hentry self1.
  assert (Hgone : prepared_submits self1 !! code = None)
    by (cbn; apply lookup_delete_eq).
  split; [|split; [done|split; [|split; [done|]]]].
  - by apply consume_next_submit_cached.
  - intros other Hne. cbn. by apply lookup_delete_ne.
  - by apply consume_next_submit_missing.
Qed.

Lemma consume_next_submit_removes_entry_witness :
  let self := mkWorker ∅ {[ "abc123" := {[ "post_data" := PDict {[ "field" := PStr "1" ]} ]} ]} [] in
  let self1 := mkWorker ∅ ∅ [] in
  consume_next_submit (PStr "abc123") self =
    (inr (PDict {[ "post_data" := PDict {[ "field" := PStr "1" ]} ]}), self1) /\
  consume_next_submit (PStr "abc123") self1 = (inl (KeyError (PStr "abc123")), self1).
Proof.
  cbv zeta.
  pose proof (consume_next_submit_removes_entry
    (mkWorker ∅ {[ "abc123" := {[ "post_data" := PDict {[ "field" := PStr "1" ]} ]} ]} [])
    "abc123" {[ "post_data" := PDict {[ "field" := PStr "1" ]} ]} eq_refl)
    as (H1 & _ & _ & _ & H5).
  split; [exact H1 | exact H5].
Defined.

(** ** C5 *)

(** C5. When the generator yields a submission and [prepare_next_submit]
    stores it, the value it returns, the value in the cache and the
    value [consume_next_submit] then returns are one and the same
    dictionary: it has no ['page_class'] key and agrees with the yielded
    submission on every other key. *)
Theorem prepare_consume_round_trip
    (self self1 : Worker) (code : string) (bot : ParticipantBot)
    (submission : pydict) (rest : generator) (path html r : pyval) :
  browser_bots self !! code = Some bot ->
  prepared_submits self !! code = None ->
  submits_generator bot = GenYield submission :: rest ->
  prepare_next_submit (PStr code) path html self = (inr r, self1) ->
  exists stored : pydict,
    r = PDict stored /\
    prepared_submits self1 !! code = Some stored /\
    fst (consume_next_submit (PStr code) self1) = inr (PDict stored) /\
    stored !! "page_class" = None /\
    (forall k, k <> "page_class" -> stored !! k = submission !! k).
Proof.
  intros Hbot Hnone Hgen Hcall.
  rewrite (prepare_next_submit_fresh _ _ _ _ _ Hbot Hnone) in Hcall.
  assert (Hnext : next (submits_generator bot) = (inr submission, rest))
    by (by rewrite Hgen).
  rewrite Hnext in Hcall. cbv zeta in Hcall.
  destruct (submission !! "page_class") as [tag|] eqn:Htag; [|discriminate Hcall].
  injection Hcall as <- <-.
  exists (delete "page_class" submission).
  assert (Hstored : prepared_submits
            (set_prepared_submits (insert code (delete "page_class" submission))
               (set_browser_bots (insert code (mkParticipantBot rest path html))
                  (set_browser_bots
                     (insert code (mkParticipantBot (submits_generator bot) path html))
                     self))) !! code = Some (delete "page_class" submission))
    by (cbn; apply lookup_insert_eq).
  split; [done|]. split; [exact Hstored|]. split; [|split].
  - rewrite (consume_next_submit_cached _ _ _ Hstored). cbn.
    by rewrite delete_delete_eq.
  - apply lookup_delete_eq.
  - intros k Hk. by apply lookup_delete_ne.
Qed.

Lemma prepare_consume_round_trip_witness :
  let submission :=
    {[ "page_class" := PObj "Page"; "post_data" := PDict {[ "field" := PStr "1" ]} ]} : pydict in
  let self := mkWorker {[ "abc123" := mkParticipantBot [GenYield submission] PNone PNone ]} ∅ [] in
  exists stored : pydict,
    fst (consume_next_submit (PStr "abc123")
           (snd (prepare_next_submit (PStr "abc123") (PStr "/page1") (PStr "<html/>") self)))
      = inr (PDict stored) /\
    stored !! "page_class" = None /\
    stored !! "post_data" = Some (PDict {[ "field" := PStr "1" ]}).
Proof.
  intros submission self.
  pose proof (prepare_consume_round_trip self
    (snd (prepare_next_submit (PStr "abc123") (PStr "/page1") (PStr "<html/>") self))
    "abc123" (mkParticipantBot [GenYield submission] PNone PNone) submission []
    (PStr "/page1") (PStr "<html/>")
    (PDict {[ "post_data" := PDict {[ "field" := PStr "1" ]} ]})) as H.
  destruct H as (stored & _ & _ & Hconsume & Htag & Hother);
    [vm_compute; reflexivity .. |].
  exists stored. split; [exact Hconsume|]. split; [exact Htag|].
  rewrite (Hother "post_data"); [reflexivity | discriminate].
Defined.

(** ** C7 *)

(** C7 does not hold of the code: [clear_all] empties the session map
    and leaves the submission cache as it was. *)
Theorem clear_all_keeps_prepared_submits (self : Worker) :
  fst (clear_all self) = inr PNone /\
  browser_bots (snd (clear_all self)) = ∅ /\
  prepared_submits (snd (clear_all self)) = prepared_submits self.
Proof. by cbn. Qed.

(** The failing input of C7: one cache entry survives [clear_all]; after
    the participant is loaded again, [prepare_next_submit] finds the
    stale entry, leaves the new generator alone, and the stale entry is
    what [consume_next_submit] hands out. *)
Lemma clear_all_leaves_stale_entry :
  let stale := {[ "post_data" := PInt 1 ]} : pydict in
  let fresh := {[ "page_class" := PObj "Page"; "post_data" := PInt 2 ]} : pydict in
  let bot := mkParticipantBot [GenYield fresh] PNone PNone in
  let self := mkWorker {[ "abc" := bot ]} {[ "abc" := stale ]} [] in
  let cleared := snd (clear_all self) in
  let reloaded := snd (initialize_participant {[ "abc" := bot ]} (PStr "abc") cleared) in
  let prepared := prepare_next_submit (PStr "abc") PNone PNone reloaded in
  prepared_submits cleared = {[ "abc" := stale ]} /\
  prepared_submits cleared <> ∅ /\
  fst prepared = inr (PDict ∅) /\
  generator_of (snd prepared) "abc" = Some [GenYield fresh] /\
  fst (consume_next_submit (PStr "abc") (snd prepared)) = inr (PDict stale).
Proof.
  cbv zeta. repeat split.
  intros H. apply (f_equal (fun cache => from_option (fun _ => true) false (cache !! "abc"))) in H.
  vm_compute in H. discriminate H.
Qed.

(** The second sentence behind C7 does hold: after [clear_all], a
    [prepare_next_submit] for any identifier is answered as for an
    identifier that was never loaded. *)
Lemma prepare_next_submit_after_clear_all (self : Worker) (code : string)
    (path html : pyval) :
  prepare_next_submit (PStr code) path html (snd (clear_all self)) =
    (inr (PDict {[ "request_error" := PStr (not_loaded_message (PStr code)) ]}),
     snd (clear_all self)).
Proof.
  unfold prepare_next_submit. cbn [clear_all snd set_browser_bots browser_bots].
  by rewrite (dict_getitem_None (A := ParticipantBot) ∅ code (lookup_empty code)).
Qed.

(** ** The receive loop *)

Lemma rpush_lookup (conn : redis) (key : string) (value : message_bytes) :
  rpush conn key value !! key = Some (default [] (conn !! key) ++ [value])%list /\
  (forall other, other <> key -> rpush conn key value !! other = conn !! other).
Proof.
  unfold rpush. split; [apply lookup_insert_eq|].
  intros other Hne. by apply lookup_insert_ne.
Qed.

Section ReceiveLoop.

Context (Participant_objects : gmap string ParticipantBot).
Context (repr format_exc : exn -> string).

#[local] Abbreviation invoke_ := (invoke Participant_objects).
#[local] Abbreviation call_method_ := (call_method Participant_objects).
#[local] Abbreviation failure_envelope_ := (failure_envelope repr format_exc).
#[local] Abbreviation redis_listen_iteration_ :=
  (redis_listen_iteration Participant_objects repr format_exc).

(** The failure envelope is never mistaken for an empty result and
    always serialises. *)
Lemma failure_envelope_dumps (exc : exn) :
  json_dumps (py_or (failure_envelope_ exc) (PDict ∅))
    = inr (JsonText (failure_envelope_ exc)).
Proof. reflexivity. Qed.

(** A mismatch between the arguments and the parameters of a method
    is raised by the call, before the method runs. *)
Lemma call_method_mismatch m params args kwargs exc self :
  parameters m = Some params ->
  bind_params params args kwargs = inl exc ->
  call_method_ m args kwargs self = (inl exc, self).
Proof.
  intros Hparams Hbind.
  destruct m; cbn in Hparams; try discriminate Hparams;
    injection Hparams as <-; unfold call_method; by rewrite Hbind.
Qed.

(** The loop turn on a message that decodes to a dictionary with a
    string under ['response_key']. *)
Lemma redis_listen_iteration_decoded self conn key m rk conn1 :
  blpop conn (redis_listen_keys self) = Some (key, JsonText (PDict m), conn1) ->
  m !! "response_key" = Some (PStr rk) ->
  redis_listen_iteration_ self conn =
    match invoke_ (PDict m) self with
    | (inl exc, self') =>
        Served self' (rpush conn1 rk (JsonText (failure_envelope_ exc)))
    | (inr retval, self') =>
        match json_dumps (py_or retval (PDict ∅)) with
        | inl exc => Crashed exc self' conn1
        | inr retval_json => Served self' (rpush conn1 rk retval_json)
        end
    end.
Proof.
  intros Hpop Hrk. unfold redis_listen_iteration.
  rewrite Hpop. cbn [json_loads py_subscript]. rewrite Hrk.
  destruct (invoke_ (PDict m) self) as [[exc|retval] self'].
  - by rewrite failure_envelope_dumps.
  - by destruct (json_dumps (py_or retval (PDict ∅))).
Qed.

(** What the handler of the loop does cover. For a consumed message
    that decodes to a dictionary with a string under ['response_key']:
    every failure of the invocation (a missing or unknown command name,
    arguments that do not fit the method, an exception raised by the
    method) is caught and answered with the failure envelope pushed to
    that response key, and the loop goes on; a result that serialises
    is pushed to the response key likewise. In both cases the turn
    pushes exactly one message, onto the response key. *)
Theorem redis_listen_answers_failures
    (self : Worker) (conn conn1 : redis) (key rk : string) (m : pydict) :
  blpop conn (redis_listen_keys self) = Some (key, JsonText (PDict m), conn1) ->
  m !! "response_key" = Some (PStr rk) ->
  (forall exc self',
      invoke_ (PDict m) self = (inl exc, self') ->
      redis_listen_iteration_ self conn =
        Served self' (rpush conn1 rk (JsonText (failure_envelope_ exc)))) /\
  (forall retval self',
      invoke_ (PDict m) self = (inr retval, self') ->
      json_serializable (py_or retval (PDict ∅)) = true ->
      redis_listen_iteration_ self conn =
        Served self' (rpush conn1 rk (JsonText (py_or retval (PDict ∅))))) /\
  (m !! "command" = None ->
      invoke_ (PDict m) self = (inl (KeyError (PStr "command")), self)) /\
  (forall name,
      m !! "command" = Some (PStr name) -> commands !! name = None ->
      invoke_ (PDict m) self = (inl (KeyError (PStr name)), self)) /\
  (forall name meth params args kwargs exc,
      m !! "command" = Some (PStr name) -> commands !! name = Some meth ->
      parameters meth = Some params ->
      star_args (default (PList []) (m !! "args")) = inr args ->
      star_kwargs (default (PDict ∅) (m !! "kwargs")) = inr kwargs ->
      bind_params params args kwargs = inl exc ->
      invoke_ (PDict m) self = (inl exc, self)).
Proof.
  intros Hpop Hrk.
  pose proof (redis_listen_iteration_decoded _ _ _ _ _ _ Hpop Hrk) as Hturn.
  split; [|split; [|split; [|split]]].
  - intros exc self' Hinv. by rewrite Hturn, Hinv.
  - intros retval self' Hinv Hser. rewrite Hturn, Hinv.
    unfold json_dumps. by rewrite Hser.
  - intros Hcmd. unfold invoke, bind, lift_result.
    cbn [py_subscript]. by rewrite Hcmd.
  - intros name Hcmd Hnone. unfold invoke, bind, lift_result.
    cbn [py_subscript py_get]. rewrite Hcmd.
    unfold get_method. by rewrite (dict_getitem_None _ _ Hnone).
  - intros name meth params args kwargs exc Hcmd Hmeth Hparams Hargs Hkwargs Hbind.
    unfold invoke, bind, lift_result.
    cbn [py_subscript py_get]. rewrite Hcmd.
    unfold get_method. rewrite (dict_getitem_Some _ _ _ Hmeth).
    rewrite Hargs, Hkwargs.
    by apply call_method_mismatch with params.
Qed.

(** C2. The claim does not hold of the code: a request can end the
    loop and be left without a response. [json.dumps(retval or {})]
    runs in the [finally] clause, where no handler covers it. When the
    method returns a result that does not serialise, the [TypeError] of
    [json.dumps] leaves the [while True]: [redis_listen] is over,
    nothing has been pushed for the request, which is gone from its
    queue, and what the method did to the worker stays. *)
Theorem redis_listen_crashes_on_unserialisable_result
    (self self' : Worker) (conn conn1 : redis) (key rk : string) (m : pydict)
    (retval : pyval) :
  blpop conn (redis_listen_keys self) = Some (key, JsonText (PDict m), conn1) ->
  m !! "response_key" = Some (PStr rk) ->
  invoke_ (PDict m) self = (inr retval, self') ->
  json_serializable (py_or retval (PDict ∅)) = false ->
  redis_listen_iteration_ self conn
    = Crashed (TypeError "is not JSON serializable") self' conn1 /\
  forall turns,
    redis_listen Participant_objects repr format_exc (S turns) self conn
      = (Stopped (TypeError "is not JSON serializable"), self', conn1).
Proof.
  intros Hpop Hrk Hinvoke Hser.
  assert (Hturn : redis_listen_iteration_ self conn
                  = Crashed (TypeError "is not JSON serializable") self' conn1).
  { rewrite (redis_listen_iteration_decoded _ _ _ _ _ _ Hpop Hrk), Hinvoke.
    unfold json_dumps. by rewrite Hser. }
  split; [exact Hturn|].
  intros turns. cbn [redis_listen]. by rewrite Hturn.
Qed.

End ReceiveLoop.

(** The failing request of C2: the proxy's own [prepare_next_submit]
    request for a participant whose next submission carries an amount
    that [json.dumps] refuses. The loop ends on the [TypeError], the
    response list of the request stays empty, and the worker has
    already advanced the generator and cached the submission. *)
Lemma redis_listen_crashes_on_unserialisable_result_witness :
  let eb := mkEphemeralBrowserBot "abc123" (PStr "/page1") in
  let data := PDict {[ "amount" := PObj "Currency" ]} in
  let submission : pydict := {[ "page_class" := PObj "Page"; "post_data" := data ]} in
  let self := mkWorker {[ "abc123" := mkParticipantBot [GenYield submission] PNone PNone ]}
                ∅ (listen_keys_of "a") in
  let self' := mkWorker {[ "abc123" := mkParticipantBot [] (PStr "/page1") (PStr "<html/>") ]}
                 {[ "abc123" := {[ "post_data" := data ]} ]} (listen_keys_of "a") in
  let conn : redis := {[ "otree-bots-a" := [JsonText (prepare_msg eb (PStr "<html/>"))] ]} in
  redis_listen ∅ (fun _ => "repr") (fun _ => "traceback") 1 self conn
    = (Stopped (TypeError "is not JSON serializable"), self', {[ "otree-bots-a" := [] ]}) /\
  ({[ "otree-bots-a" := [] ]} : redis) !! prepare_response_key "abc123" = None.
Proof.
  intros eb data submission self self' conn.
  pose proof (redis_listen_crashes_on_unserialisable_result ∅ (fun _ => "repr")
                (fun _ => "traceback") self self' conn {[ "otree-bots-a" := [] ]}
                "otree-bots-a" (prepare_response_key "abc123")
                {[ "command" := PStr "prepare_next_submit";
                   "kwargs" := PDict {[ "participant_code" := PStr "abc123";
                                        "path" := PStr "/page1";
                                        "html" := PStr "<html/>" ]};
                   "response_key" := PStr (prepare_response_key "abc123") ]}
                (PDict {[ "post_data" := data ]})) as H.
  destruct H as [_ Hloop]; [vm_compute; reflexivity ..|].
  split; [exact (Hloop 0) | vm_compute; reflexivity].
Defined.

(** The statements before the [try] are not covered either: the message
    below is not JSON, [json.loads] raises, the exception leaves the
    loop, and nothing has been pushed. *)
Lemma redis_listen_crashes_on_undecodable :
  let self := mkWorker ∅ ∅ (listen_keys_of "a") in
  let conn : redis := {[ "otree-bots-a" := [NotJson "{"] ]} in
  redis_listen_iteration ∅ (fun _ => "repr") (fun _ => "traceback") self conn =
    Crashed (ValueError "No JSON object could be decoded") self
            {[ "otree-bots-a" := [] ]}.
Proof. vm_compute. reflexivity. Qed.

(** The same happens to a JSON message without a ['response_key']. *)
Lemma redis_listen_crashes_without_response_key :
  let self := mkWorker ∅ ∅ (listen_keys_of "a") in
  let conn : redis := {[ "otree-bots-a" := [JsonText (PDict {[ "command" := PStr "ping" ]})] ]} in
  redis_listen_iteration ∅ (fun _ => "repr") (fun _ => "traceback") self conn =
    Crashed (KeyError (PStr "response_key")) self {[ "otree-bots-a" := [] ]}.
Proof. vm_compute. reflexivity. Qed.

Lemma redis_listen_answers_failures_witness :
  let self := mkWorker ∅ ∅ (listen_keys_of "a") in
  let m : pydict := {[ "command" := PStr "no_such_command";
                       "response_key" := PStr "otree-bots-ping-a1" ]} in
  let conn : redis := {[ "otree-bots-a" := [JsonText (PDict m)] ]} in
  redis_listen_iteration ∅ (fun _ => "repr") (fun _ => "traceback") self conn =
    Served self
      (rpush {[ "otree-bots-a" := [] ]} "otree-bots-ping-a1"
         (JsonText (PDict {[ "response_error" := PStr "repr";
                             "traceback" := PStr "traceback" ]}))).
Proof.
  intros self m conn.
  pose proof (redis_listen_answers_failures ∅ (fun _ => "repr") (fun _ => "traceback")
    self conn {[ "otree-bots-a" := [] ]} "otree-bots-a" "otree-bots-ping-a1" m) as H.
  destruct H as (Hfail & _ & _ & Hunknown & _); [vm_compute; reflexivity ..|].
  apply (Hfail (KeyError (PStr "no_such_command")) self).
  apply Hunknown; vm_compute; reflexivity.
Defined.

(** ** Requests as the worker sees them *)

Section Requests.

Context (Participant_objects : gmap string ParticipantBot).
Context (repr format_exc : exn -> string).

#[local] Abbreviation invoke_ := (invoke Participant_objects).
#[local] Abbreviation failure_envelope_ := (failure_envelope repr format_exc).
#[local] Abbreviation redis_listen_iteration_ :=
  (redis_listen_iteration Participant_objects repr format_exc).

(** The request of the proxy's [prepare_next_submit_redis] runs the
    worker's [prepare_next_submit] on the proxy's participant code,
    path and page. *)
Lemma invoke_prepare_msg (eb : EphemeralBrowserBot) (html : pyval) (self : Worker) :
  invoke_ (prepare_msg eb html) self =
    prepare_next_submit (PStr (participant_code eb)) (request_path eb) html self.
Proof. reflexivity. Qed.


Lemma invoke_ping_msg (code : string) (self : Worker) :
  invoke_ (ping_msg code) self = (inr (PDict {[ "ok" := PBool true ]}), self).
Proof. reflexivity. Qed.


End Requests.


(** ** The administrative flush *)

Lemma list_ascii_of_string_app (a b : string) :
  String.list_ascii_of_string (a +:+ b)
    = (String.list_ascii_of_string a ++ String.list_ascii_of_string b)%list.
Proof.
  induction a as [|c a IH]; [done|].
  change (String.list_ascii_of_string (String c a +:+ b))
    with (c :: String.list_ascii_of_string (a +:+ b)).
  by rewrite IH.
Qed.

(** A class written with plain characters only is read as the class of
    exactly these characters. *)
Lemma glob_tokens_plain_class (chars : list ascii) :
  forall items,
    forallb plain_char chars = true ->
    glob_tokens (Some (false, items)) (chars ++ ["]"; "*"]%char)%list
      = [GClass false (items ++ (ClassChar <$> chars))%list; GStar].
Proof.
  induction chars as [|c chars IH]; intros items Hplain.
  - cbn. by rewrite app_nil_r.
  - cbn in Hplain. apply andb_true_iff in Hplain as [Hc Hchars].
    unfold plain_char in Hc. apply negb_true_iff in Hc.
    apply orb_false_iff in Hc as [Hc _]. apply orb_false_iff in Hc as [Hc _].
    apply orb_false_iff in Hc as [Hclose Hback].
    change ((c :: chars) ++ ["]"; "*"]%char)%list
      with (c :: (chars ++ ["]"; "*"]%char))%list.
    cbn [glob_tokens]. rewrite Hclose, Hback.
    assert (Hstep : glob_tokens (Some (false, (items ++ [ClassChar c])%list))
                      (chars ++ ["]"; "*"]%char)%list
                    = [GClass false (items ++ ClassChar c :: (ClassChar <$> chars))%list; GStar]).
    { rewrite (IH _ Hchars). by rewrite <- app_assoc. }
    destruct chars as [|d chars'].
    + exact Hstep.
    + change ((d :: chars') ++ ["]"; "*"]%char)%list
        with (d :: (chars' ++ ["]"; "*"]%char))%list in *.
      cbn in Hchars. apply andb_true_iff in Hchars as [Hd _].
      unfold plain_char in Hd. apply negb_true_iff in Hd.
      apply orb_false_iff in Hd as [Hd _]. apply orb_false_iff in Hd as [_ Hdash].
      destruct (chars' ++ ["]"; "*"]%char)%list as [|hi tail] eqn:Htail.
      * by destruct chars'.
      * rewrite Hdash. exact Hstep.
Qed.

Lemma plain_class_rejects_dash (chars : list ascii) :
  forallb plain_char chars = true ->
  existsb (class_item_matches "-") (ClassChar <$> chars) = false.
Proof.
  induction chars as [|c chars IH]; intros Hplain; [done|].
  cbn in Hplain. apply andb_true_iff in Hplain as [Hc Hchars].
  cbn. rewrite (IH Hchars), orb_false_r.
  unfold plain_char in Hc. apply negb_true_iff in Hc.
  apply orb_false_iff in Hc as [Hc _]. by apply orb_false_iff in Hc as [_ Hc].
Qed.

Lemma glob_tokens_literal_prefix (lits rest : list ascii) :
  forallb literal_char lits = true ->
  glob_tokens None (lits ++ rest)%list
    = ((GChar <$> lits) ++ glob_tokens None rest)%list.
Proof.
  induction lits as [|c lits IH]; intros Hlit; [done|].
  cbn in Hlit. apply andb_true_iff in Hlit as [Hc Hlits].
  unfold literal_char in Hc. apply negb_true_iff in Hc.
  apply orb_false_iff in Hc as [Hc Hback]. apply orb_false_iff in Hc as [Hc Hopen].
  apply orb_false_iff in Hc as [Hstar Hany].
  change ((c :: lits) ++ rest)%list with (c :: (lits ++ rest))%list.
  cbn [glob_tokens]. rewrite Hstar, Hany, Hopen, Hback.
  rewrite (IH Hlits). done.
Qed.

Lemma tokens_match_literal_prefix (lits : list ascii) (ts : list glob_token)
    (s : list ascii) :
  tokens_match ((GChar <$> lits) ++ ts)%list (lits ++ s)%list = tokens_match ts s.
Proof.
  induction lits as [|c lits IH]; [done|].
  change (tokens_match ((GChar <$> c :: lits) ++ ts)%list ((c :: lits) ++ s)%list)
    with (Ascii.eqb c c && tokens_match ((GChar <$> lits) ++ ts)%list (lits ++ s)%list).
  by rewrite Ascii.eqb_refl, IH.
Qed.

(** With a character range of plain characters, the pattern of
    [redis_flush_bots] matches no key that starts with the prefix and a
    dash: the character after the prefix would have to be in the range. *)
Lemma flush_pattern_rejects_dashed_keys (char_range suffix : string) :
  forallb plain_char (String.list_ascii_of_string char_range) = true ->
  glob_match (flush_pattern char_range) (REDIS_KEY_PREFIX +:+ "-" +:+ suffix) = false.
Proof.
  intros Hplain. unfold glob_match, flush_pattern.
  rewrite !list_ascii_of_string_app.
  set (chars := String.list_ascii_of_string char_range) in *.
  set (rest := String.list_ascii_of_string suffix).
  set (prefix := String.list_ascii_of_string REDIS_KEY_PREFIX).
  assert (Hprefix : forallb literal_char prefix = true) by reflexivity.
  rewrite (glob_tokens_literal_prefix _ _ Hprefix).
  rewrite tokens_match_literal_prefix.
  change (String.list_ascii_of_string "[" ++ chars ++ String.list_ascii_of_string "]*")%list
    with ("["%char :: (chars ++ ["]"; "*"]%char))%list.
  change (String.list_ascii_of_string "-" ++ rest)%list with ("-"%char :: rest).
  assert (Hclass : glob_tokens None ("["%char :: (chars ++ ["]"; "*"]%char))%list
                   = [GClass false (ClassChar <$> chars); GStar]).
  { transitivity (glob_tokens (Some (false, [])) (chars ++ ["]"; "*"]%char)%list);
      [|exact (glob_tokens_plain_class chars [] Hplain)].
    destruct chars as [|c chars'] eqn:Hchars; [done|].
    cbn in Hplain. apply andb_true_iff in Hplain as [Hc _].
    unfold plain_char in Hc. apply negb_true_iff in Hc.
    apply orb_false_iff in Hc as [_ Hc].
    change ((c :: chars') ++ ["]"; "*"]%char)%list
      with (c :: (chars' ++ ["]"; "*"]%char))%list.
    change (glob_tokens None ("["%char :: c :: (chars' ++ ["]"; "*"]%char))%list)
      with (if Ascii.eqb c "^"
            then glob_tokens (Some (true, [])) (chars' ++ ["]"; "*"]%char)%list
            else glob_tokens (Some (false, [])) (c :: (chars' ++ ["]"; "*"]%char))%list).
    by rewrite Hc. }
  rewrite Hclass.
  change (tokens_match [GClass false (ClassChar <$> chars); GStar] ("-"%char :: rest))
    with (xorb false (existsb (class_item_matches "-") (ClassChar <$> chars))
          && tokens_match [GStar] rest).
  by rewrite (plain_class_rejects_dash chars Hplain).
Qed.

(** C8 does not hold of the code. With the character range that a
    participant code starts with, the pattern of [redis_flush_bots] is
    the prefix followed by one character of the range and no dash, so
    it does not match the input channel that [make_redis_key] builds,
    and the flush leaves that channel in place. (The response keys,
    which also continue with a dash, are not matched either.) *)
Theorem redis_flush_bots_keeps_input_channel :
  let char_range := "abcdefghijklmnopqrstuvwxyz0123456789" in
  let conn : redis := {[ "otree-bots-a" := [JsonText (ping_msg "abc123")];
                         "otree-bots-ping-abc123" := [JsonText (PDict ∅)] ]} in
  make_redis_key "abc123" = inr "otree-bots-a" /\
  flush_pattern char_range = "otree-bots[abcdefghijklmnopqrstuvwxyz0123456789]*" /\
  glob_match (flush_pattern char_range) "otree-bots-a" = false /\
  glob_match (flush_pattern char_range) "otree-bots-ping-abc123" = false /\
  glob_match (flush_pattern char_range) "otree-botsa" = true /\
  redis_flush_bots char_range conn None = conn /\
  redis_flush_bots "" conn (Some char_range) = conn.
Proof.
  cbv zeta. repeat split; vm_compute; reflexivity.
Qed.

(** The same for every range of plain characters and every participant
    code: the flush deletes no input channel. *)
Lemma redis_flush_bots_misses_input_channels
    (charset char_range code key : string) (conn : redis) :
  forallb plain_char (String.list_ascii_of_string char_range) = true ->
  char_range <> EmptyString ->
  make_redis_key code = inr key ->
  glob_match (flush_pattern char_range) key = false /\
  redis_flush_bots charset conn (Some char_range) !! key = conn !! key.
Proof.
  intros Hplain Hne Hkey.
  assert (Hmiss : glob_match (flush_pattern char_range) key = false).
  { destruct code as [|c tail]; [discriminate Hkey|].
    injection Hkey as <-. by apply flush_pattern_rejects_dashed_keys. }
  split; [exact Hmiss|].
  unfold redis_flush_bots.
  destruct (String.eqb_spec char_range EmptyString) as [->|_]; [done|].
  destruct (conn !! key) as [msgs|] eqn:Hconn.
  - by apply map_lookup_filter_Some_2.
  - apply map_lookup_filter_None_2. by left.
Qed.

(** ** The proxy: timeouts *)

Lemma ping_failed_is_not_no_submission :
  ping_failed_message <> no_submission_message.
Proof. discriminate. Qed.

Section Timeouts.

Context (Participant_objects : gmap string ParticipantBot).
Context (repr format_exc : exn -> string).

#[local] Abbreviation client_blpop_ :=
  (client_blpop Participant_objects repr format_exc).
#[local] Abbreviation ping_ := (ping Participant_objects repr format_exc).

(** After a timeout, a ping request is pushed on the participant's
    input channel and awaited; the error depends on its outcome. *)
Lemma ping_then_raise (code key : string) (w w' : world)
    (probe : option message_bytes) :
  make_redis_key code = inr key ->
  client_blpop_ (ping_response_key code)
      (set_server (rpush (server w) key (JsonText (ping_msg code))) w)
    = (inr probe, w') ->
  bind (ping_ code)
       (fun _ => raise (A := pyval) (Exception_ (PStr no_submission_message))) w
    = (inl (timeout_diagnosis probe), w').
Proof.
  intros Hkey Hprobe. unfold ping, bind, lift_result, client_rpush, modify.
  rewrite Hkey. cbn [json_dumps]. 
  change (json_dumps (ping_msg code)) with (inr (A := exn) (JsonText (ping_msg code))).
  cbv beta iota. rewrite Hprobe. by destruct probe.
Qed.


Lemma prepare_next_submit_redis_timeout (eb : EphemeralBrowserBot) (html : pyval)
    (key : string) (w w1 w2 : world) (probe : option message_bytes) :
  make_redis_key (participant_code eb) = inr key ->
  json_serializable (prepare_msg eb html) = true ->
  client_blpop_ (prepare_response_key (participant_code eb))
      (set_server (rpush (server w) key (JsonText (prepare_msg eb html))) w)
    = (inr None, w1) ->
  client_blpop_ (ping_response_key (participant_code eb))
      (set_server (rpush (server w1) key (JsonText (ping_msg (participant_code eb)))) w1)
    = (inr probe, w2) ->
  prepare_next_submit_redis Participant_objects repr format_exc eb html w
    = (inl (timeout_diagnosis probe), w2).
Proof.
  intros Hkey Hser Htimeout Hprobe.
  unfold prepare_next_submit_redis.
  unfold bind at 1, lift_result at 1. rewrite Hkey.
  unfold bind at 1, lift_result at 1, json_dumps. rewrite Hser.
  unfold bind at 1, client_rpush at 1, modify at 1.
  unfold bind at 1. rewrite Htimeout.
  exact (ping_then_raise _ key _ _ _ Hkey Hprobe).
Qed.

Lemma get_next_post_data_redis_timeout (eb : EphemeralBrowserBot)
    (key : string) (w w1 w2 : world) (probe : option message_bytes) :
  make_redis_key (participant_code eb) = inr key ->
  client_blpop_ (consume_response_key (participant_code eb))
      (set_server (rpush (server w) key (JsonText (consume_msg eb))) w)
    = (inr None, w1) ->
  client_blpop_ (ping_response_key (participant_code eb))
      (set_server (rpush (server w1) key (JsonText (ping_msg (participant_code eb)))) w1)
    = (inr probe, w2) ->
  get_next_post_data_redis Participant_objects repr format_exc eb w
    = (inl (timeout_diagnosis probe), w2).
Proof.
  intros Hkey Htimeout Hprobe.
  unfold get_next_post_data_redis.
  unfold bind at 1, lift_result at 1. rewrite Hkey.
  unfold bind at 1, lift_result at 1.
  change (json_dumps (consume_msg eb)) with (inr (A := exn) (JsonText (consume_msg eb))).
  unfold bind at 1, client_rpush at 1, modify at 1.
  unfold bind at 1. rewrite Htimeout.
  exact (ping_then_raise _ key _ _ _ Hkey Hprobe).
Qed.

(** C9. With Redis in use, when the blocking pop of
    [prepare_next_submit] or of [get_next_post_data] times out, a ping
    request is pushed on the participant's input channel and awaited.
    If that pop times out too, the call raises the error whose text,
    spelled out below, says that the ping failed and what to do about
    it: run the botworker, or switch the browser bots off in the
    session config. If the ping is answered, the call raises the other
    error, that the botworker is running but did not return a
    submission. *)
Theorem timeout_is_diagnosed_by_ping (eb : EphemeralBrowserBot) (key : string)
    (w : world) :
  USE_REDIS w = true ->
  make_redis_key (participant_code eb) = inr key ->
  (forall html w1 w2 probe,
      json_serializable (prepare_msg eb html) = true ->
      client_blpop_ (prepare_response_key (participant_code eb))
          (set_server (rpush (server w) key (JsonText (prepare_msg eb html))) w)
        = (inr None, w1) ->
      client_blpop_ (ping_response_key (participant_code eb))
          (set_server (rpush (server w1) key (JsonText (ping_msg (participant_code eb)))) w1)
        = (inr probe, w2) ->
      EphemeralBrowserBot_prepare_next_submit Participant_objects repr format_exc eb html w
        = (inl (timeout_diagnosis probe), w2)) /\
  (forall w1 w2 probe,
      client_blpop_ (consume_response_key (participant_code eb))
          (set_server (rpush (server w) key (JsonText (consume_msg eb))) w)
        = (inr None, w1) ->
      client_blpop_ (ping_response_key (participant_code eb))
          (set_server (rpush (server w1) key (JsonText (ping_msg (participant_code eb)))) w1)
        = (inr probe, w2) ->
      get_next_post_data Participant_objects repr format_exc eb w
        = (inl (timeout_diagnosis probe), w2)) /\
  timeout_diagnosis None =
    Exception_
      (PStr ("Ping to botworker failed. "
             +:+ "If you want to use browser bots, "
             +:+ "you need to be running the botworker."
             +:+ "Otherwise, set (" +:+ String (ascii_of_nat 34) "use_browser_bots"
             +:+ String (ascii_of_nat 34) ": False) in the session config "
             +:+ "in settings.py.")) /\
  (forall answer,
      timeout_diagnosis (Some answer) =
        Exception_ (PStr "botworker is running but did not return a submission.")) /\
  (forall answer, timeout_diagnosis None <> timeout_diagnosis (Some answer)).
Proof.
  intros Huse Hkey. split; [|split; [|split; [done|split; [done|done]]]].
  - intros html w1 w2 probe Hser Htimeout Hprobe.
    unfold EphemeralBrowserBot_prepare_next_submit.
    unfold bind at 1. rewrite Huse.
    unfold bind at 1. unfold bind at 1.
    by rewrite (prepare_next_submit_redis_timeout _ _ _ _ _ _ _ Hkey Hser Htimeout Hprobe).
  - intros w1 w2 probe Htimeout Hprobe.
    unfold get_next_post_data.
    unfold bind at 1. rewrite Huse.
    unfold bind at 1.
    by rewrite (get_next_post_data_redis_timeout _ _ _ _ _ _ Hkey Htimeout Hprobe).
Qed.

End Timeouts.

Lemma timeout_is_diagnosed_by_ping_witness :
  let eb := mkEphemeralBrowserBot "abc123" (PStr "/page1") in
  let worker := mkWorker ∅ ∅ (listen_keys_of "abc") in
  let down := mkWorld true None ∅ None [] in
  let slow := mkWorld true None ∅ (Some worker) [0; 2] in
  let unreachable :=
    Exception_
      (PStr ("Ping to botworker failed. "
             +:+ "If you want to use browser bots, "
             +:+ "you need to be running the botworker."
             +:+ "Otherwise, set (" +:+ String (ascii_of_nat 34) "use_browser_bots"
             +:+ String (ascii_of_nat 34) ": False) in the session config "
             +:+ "in settings.py.")) in
  let unresponsive :=
    Exception_ (PStr "botworker is running but did not return a submission.") in
  fst (get_next_post_data ∅ (fun _ => "repr") (fun _ => "traceback") eb down)
    = inl unreachable /\
  fst (get_next_post_data ∅ (fun _ => "repr") (fun _ => "traceback") eb slow)
    = inl unresponsive /\
  fst (EphemeralBrowserBot_prepare_next_submit ∅ (fun _ => "repr") (fun _ => "traceback")
         eb (PStr "<html/>") down)
    = inl unreachable.
Proof.
  intros eb worker down slow unreachable unresponsive.
  pose proof (timeout_is_diagnosed_by_ping ∅ (fun _ => "repr") (fun _ => "traceback")
                eb "otree-bots-a" down eq_refl eq_refl)
    as (Hprepare & Hconsume & Hdown & Hup & _).
  pose proof (timeout_is_diagnosed_by_ping ∅ (fun _ => "repr") (fun _ => "traceback")
                eb "otree-bots-a" slow eq_refl eq_refl) as (_ & Hslow & _).
  split; [|split].
  - erewrite (Hconsume _ _ None); [exact (f_equal inl Hdown) | vm_compute; reflexivity ..].
  - erewrite (Hslow _ _ (Some (JsonText (PDict {[ "ok" := PBool true ]}))));
      [exact (f_equal inl (Hup _)) | vm_compute; reflexivity ..].
  - erewrite (Hprepare (PStr "<html/>") _ _ None);
      [exact (f_equal inl Hdown) | vm_compute; reflexivity ..].
Defined.

(** ** The proxy: the end of the sequence *)

(** A listen queue that receives a message when all listen queues are
    empty is the one the worker pops. *)
Lemma blpop_after_rpush (conn : redis) (keys : list string) (key : string)
    (value : message_bytes) :
  (forall k, k ∈ keys -> default [] (conn !! k) = []) ->
  key ∈ keys ->
  blpop (rpush conn key value) keys
    = Some (key, value, <[key := []]> (rpush conn key value)).
Proof.
  intros Hempty Hin.
  induction keys as [|k keys IH]; [by apply elem_of_nil in Hin|].
  cbn [blpop].
  destruct (decide (k = key)) as [->|Hne].
  - destruct (rpush_lookup conn key value) as [-> _].
    rewrite (Hempty key); [done | by left].
  - destruct (rpush_lookup conn key value) as [_ Hother].
    rewrite (Hother k Hne).
    assert (Hk : default [] (conn !! k) = []) by (apply Hempty; by left).
    apply elem_of_cons in Hin as [->|Hin]; [done|].
    assert (IH' := IH (fun k' Hk' => Hempty k' (proj2 (elem_of_cons _ _ _) (or_intror Hk'))) Hin).
    destruct (conn !! k) as [[|? ?]|]; [exact IH' | discriminate Hk | exact IH'].
Qed.

Lemma consume_response_key_is_no_input_key (code key : string) :
  make_redis_key code = inr key -> consume_response_key code <> key.
Proof.
  destruct code as [|c tail]; [discriminate|].
  intros [= <-] H.
  unfold consume_response_key, REDIS_KEY_PREFIX in H. cbn in H.
  destruct tail; discriminate H.
Qed.

Section EndOfSequence.

Context (Participant_objects : gmap string ParticipantBot).
Context (repr format_exc : exn -> string).

#[local] Abbreviation await_ := (await Participant_objects repr format_exc).
#[local] Abbreviation botworker_turn_ :=
  (botworker_turn Participant_objects repr format_exc).




End EndOfSequence.



(** * Further properties of the worker *)

Lemma dict_getitem_inr {A} (d : gmap string A) (k : pyval) (s : string) (a : A) :
  dict_getitem d k = inr (s, a) -> k = PStr s /\ d !! s = Some a.
Proof.
  unfold dict_getitem. destruct k; try (destruct (hashable _); discriminate).
  destruct (d !! s0) eqn:H; [|discriminate]. by intros [= <- <-].
Qed.

(** What [prepare_next_submit] can do to the worker: the bot of the
    identifier gets the page and a generator that is the old one or the
    old one after one step; the cache is as before or has one new entry,
    without ['page_class'], under an identifier that had none. *)
Lemma prepare_next_submit_effect (participant_code path html : pyval) (self : Worker) :
  let self1 := snd (prepare_next_submit participant_code path html self) in
  redis_listen_keys self1 = redis_listen_keys self /\
  (self1 = self \/
   exists code bot gen,
     participant_code = PStr code /\
     browser_bots self !! code = Some bot /\
     (gen = submits_generator bot \/ gen = snd (next (submits_generator bot))) /\
     browser_bots self1 = <[code := mkParticipantBot gen path html]> (browser_bots self) /\
     (prepared_submits self1 = prepared_submits self \/
      exists submission,
        prepared_submits self !! code = None /\
        submission !! "page_class" = None /\
        prepared_submits self1 = <[code := submission]> (prepared_submits self))).
Proof.
  cbv zeta. unfold prepare_next_submit.
  destruct (dict_getitem (browser_bots self) participant_code) as [exc|[code bot]] eqn:Hget.
  - split; [by destruct exc|]. left. by destruct exc.
  - apply dict_getitem_inr in Hget as [-> Hbot].
    cbn [prepared_submits set_browser_bots].
    destruct (prepared_submits self !! code) as [entry|] eqn:Hentry.
    + rewrite bool_decide_eq_true_2 by (by eexists). cbn. split; [done|].
      right. exists code, bot, (submits_generator bot). by repeat split; auto.
    + rewrite bool_decide_eq_false_2 by (by intros [? ?]).
      cbn [submits_generator].
      destruct (next (submits_generator bot)) as [step gen] eqn:Hnext.
      assert (Hgen : gen = snd (next (submits_generator bot))) by (by rewrite Hnext).
      assert (Hbots : forall b : ParticipantBot,
                 <[code := mkParticipantBot gen path html]> (<[code := b]> (browser_bots self))
                 = <[code := mkParticipantBot gen path html]> (browser_bots self))
        by (intros b; apply insert_insert_eq).
      destruct step as [exc|submission].
      * destruct exc; cbn; (split; [done|]); right; exists code, bot, gen;
          rewrite Hbots; repeat split; auto.
        right. exists ∅. by repeat split.
      * destruct (dict_pop submission (PStr "page_class")) as [exc|[tag stored]] eqn:Hpop.
        -- cbn. split; [done|]. right. exists code, bot, gen.
           rewrite Hbots. by repeat split; auto.
        -- cbn. split; [done|]. right. exists code, bot, gen.
           rewrite Hbots. repeat split; auto.
           right. exists stored. split; [done|]. split; [|done].
           unfold dict_pop in Hpop.
           destruct (dict_getitem submission (PStr "page_class")) as [|[k v]] eqn:Hg;
             [discriminate|].
           apply dict_getitem_inr in Hg as [[= <-] _].
           injection Hpop as _ <-. apply lookup_delete_eq.
Qed.

(** [consume_next_submit] only removes the entry of its identifier. *)
Lemma consume_next_submit_effect (participant_code : pyval) (self : Worker) :
  let self1 := snd (consume_next_submit participant_code self) in
  redis_listen_keys self1 = redis_listen_keys self /\
  browser_bots self1 = browser_bots self /\
  (self1 = self \/
   exists code, participant_code = PStr code /\
                prepared_submits self1 = delete code (prepared_submits self)).
Proof.
  cbv zeta. unfold consume_next_submit, dict_pop.
  destruct (dict_getitem (prepared_submits self) participant_code)
    as [exc|[code submission]] eqn:Hget; cbn.
  - by repeat split; auto.
  - apply dict_getitem_inr in Hget as [-> _]. repeat split. right. by exists code.
Qed.

(** ** Clients do not interfere *)

(** X1. [prepare_next_submit] and [consume_next_submit] for one
    identifier leave the bot and the cache entry of every other
    identifier as they were, whatever they return or raise. *)
Theorem calls_leave_other_clients_alone
    (participant_code path html : pyval) (self : Worker) (other : string) :
  participant_code <> PStr other ->
  browser_bots (snd (prepare_next_submit participant_code path html self)) !! other
    = browser_bots self !! other /\
  prepared_submits (snd (prepare_next_submit participant_code path html self)) !! other
    = prepared_submits self !! other /\
  browser_bots (snd (consume_next_submit participant_code self)) !! other
    = browser_bots self !! other /\
  prepared_submits (snd (consume_next_submit participant_code self)) !! other
    = prepared_submits self !! other.
Proof.
  intros Hother.
  destruct (prepare_next_submit_effect participant_code path html self) as [_ Hprepare].
  destruct (consume_next_submit_effect participant_code self) as (_ & Hbots & Hconsume).
  assert (Hp : browser_bots (snd (prepare_next_submit participant_code path html self))
                 !! other = browser_bots self !! other /\
               prepared_submits (snd (prepare_next_submit participant_code path html self))
                 !! other = prepared_submits self !! other).
  { destruct Hprepare as [->|(code & bot & gen & -> & _ & _ & -> & Hcache)]; [done|].
    assert (Hne : code <> other) by congruence.
    split; [by apply lookup_insert_ne|].
    destruct Hcache as [->|(submission & _ & _ & ->)]; [done|].
    by apply lookup_insert_ne. }
  destruct Hp as [Hp1 Hp2]. split; [exact Hp1|]. split; [exact Hp2|].
  split; [by rewrite Hbots|].
  destruct Hconsume as [->|(code & -> & ->)]; [done|].
  apply lookup_delete_ne. congruence.
Qed.

Lemma calls_leave_other_clients_alone_witness :
  let tagged := {[ "page_class" := PObj "Page"; "post_data" := PInt 1 ]} : pydict in
  let bot := mkParticipantBot [GenYield tagged] PNone PNone in
  let self := mkWorker {[ "abc" := bot; "xyz" := bot ]} {[ "xyz" := {[ "post_data" := PInt 7 ]} ]} [] in
  let self1 := snd (prepare_next_submit (PStr "abc") (PStr "/p") (PStr "h") self) in
  browser_bots self1 !! "xyz" = Some bot /\
  prepared_submits self1 !! "xyz" = Some {[ "post_data" := PInt 7 ]}.
Proof.
  intros tagged bot self self1.
  pose proof (calls_leave_other_clients_alone (PStr "abc") (PStr "/p") (PStr "h") self "xyz")
    as H.
  destruct H as (H1 & H2 & _); [discriminate|].
  split.
  - unfold self1. rewrite H1. vm_compute. reflexivity.
  - unfold self1. rewrite H2. vm_compute. reflexivity.
Defined.

(** X2. Whenever a bot is loaded for the identifier,
    [prepare_next_submit] records the path and the page on it, also
    when the request is a duplicate and when the call raises. *)
Theorem prepare_next_submit_records_page
    (self : Worker) (code : string) (bot : ParticipantBot) (path' html' : pyval) :
  browser_bots self !! code = Some bot ->
  exists bot1,
    browser_bots (snd (prepare_next_submit (PStr code) path' html' self)) !! code
      = Some bot1 /\
    path bot1 = path' /\ html bot1 = html'.
Proof.
  intros Hbot.
  destruct (prepared_submits self !! code) as [entry|] eqn:Hentry.
  - rewrite (prepare_next_submit_cached _ _ _ _ _ _ Hbot Hentry). cbn.
    rewrite lookup_insert_eq. by eexists.
  - rewrite (prepare_next_submit_fresh _ _ _ _ _ Hbot Hentry).
    destruct (next (submits_generator bot)) as [[exc|submission] gen].
    + destruct exc; cbn; rewrite lookup_insert_eq; by eexists.
    + destruct (submission !! "page_class"); cbn; rewrite lookup_insert_eq; by eexists.
Qed.

Lemma prepare_next_submit_records_page_witness :
  let untagged := {[ "post_data" := PInt 1 ]} : pydict in
  let self := mkWorker {[ "abc" := mkParticipantBot [GenYield untagged] PNone PNone ]} ∅ [] in
  exists bot1,
    browser_bots (snd (prepare_next_submit (PStr "abc") (PStr "/p") (PStr "h") self)) !! "abc"
      = Some bot1 /\
    path bot1 = PStr "/p" /\ html bot1 = PStr "h".
Proof.
  intros untagged self.
  apply (prepare_next_submit_records_page self "abc"
           (mkParticipantBot [GenYield untagged] PNone PNone)).
  vm_compute. reflexivity.
Defined.

(** ** Loading a participant *)

(** X3. [initialize_participant] for a participant the database knows
    returns the acknowledgement, puts the participant's new bot in the
    place of any bot loaded before, and changes neither the other bots
    nor the cache. An entry cached for the identifier therefore
    survives: the next [prepare_next_submit] answers with the empty
    acknowledgement, the new generator is not advanced, and
    [consume_next_submit] hands out the old entry. For a participant the
    database does not know it raises [DoesNotExist] and changes
    nothing. *)
Theorem initialize_participant_replaces_session
    (Participant_objects : gmap string ParticipantBot)
    (self : Worker) (code : string) (bot : ParticipantBot) :
  Participant_objects !! code = Some bot ->
  let self1 := snd (initialize_participant Participant_objects (PStr code) self) in
  fst (initialize_participant Participant_objects (PStr code) self)
    = inr (PDict {[ "ok" := PBool true ]}) /\
  browser_bots self1 !! code = Some bot /\
  (forall other, other <> code -> browser_bots self1 !! other = browser_bots self !! other) /\
  prepared_submits self1 = prepared_submits self /\
  (forall entry path html,
      prepared_submits self !! code = Some entry ->
      let self2 := snd (prepare_next_submit (PStr code) path html self1) in
      fst (prepare_next_submit (PStr code) path html self1) = inr (PDict ∅) /\
      generator_of self2 code = Some (submits_generator bot) /\
      fst (consume_next_submit (PStr code) self2)
        = inr (PDict (delete "page_class" entry))) /\
  (forall unknown,
      Participant_objects !! unknown = None ->
      initialize_participant Participant_objects (PStr unknown) self
        = (inl DoesNotExist, self)).
Proof.
  intros Hknown self1.
  assert (Hinit : initialize_participant Participant_objects (PStr code) self
                  = (inr (PDict {[ "ok" := PBool true ]}),
                     set_browser_bots (insert code bot) self)).
  { unfold initialize_participant. by rewrite (dict_getitem_Some _ _ _ Hknown). }
  unfold self1. rewrite Hinit. cbn [fst snd].
  assert (Hbot : browser_bots (set_browser_bots (insert code bot) self) !! code = Some bot)
    by (cbn; apply lookup_insert_eq).
  split; [done|]. split; [exact Hbot|]. split; [|split; [done|split]].
  - intros other Hne. cbn. by apply lookup_insert_ne.
  - intros entry path html Hentry.
    assert (Hentry' : prepared_submits (set_browser_bots (insert code bot) self) !! code
                      = Some entry) by exact Hentry.
    rewrite (prepare_next_submit_cached _ _ _ _ _ _ Hbot Hentry'). cbn [fst snd].
    split; [done|]. split.
    + unfold generator_of. cbn. by rewrite lookup_insert_eq.
    + by rewrite (consume_next_submit_cached _ _ entry).
  - intros unknown Hunknown. unfold initialize_participant.
    by rewrite (dict_getitem_None _ _ Hunknown).
Qed.

Lemma initialize_participant_replaces_session_witness :
  let fresh := {[ "page_class" := PObj "Page"; "post_data" := PInt 2 ]} : pydict in
  let bot := mkParticipantBot [GenYield fresh] PNone PNone in
  let db : gmap string ParticipantBot := {[ "abc" := bot ]} in
  let self := mkWorker {[ "abc" := mkParticipantBot [] PNone PNone ]}
                       {[ "abc" := {[ "post_data" := PInt 1 ]} ]} [] in
  let self1 := snd (initialize_participant db (PStr "abc") self) in
  browser_bots self1 !! "abc" = Some bot /\
  fst (prepare_next_submit (PStr "abc") PNone PNone self1) = inr (PDict ∅).
Proof.
  intros fresh bot db self self1.
  pose proof (initialize_participant_replaces_session db self "abc" bot) as H.
  destruct H as (_ & Hbot & _ & _ & Hstale & _); [vm_compute; reflexivity|].
  split; [exact Hbot|].
  destruct (Hstale {[ "post_data" := PInt 1 ]} PNone PNone) as [H1 _];
    [vm_compute; reflexivity | exact H1].
Defined.

(** ** A generator that raises *)

(** X4. When the generator raises something other than [StopIteration],
    [prepare_next_submit] raises it and caches nothing, and the
    generator is finished: the next [prepare_next_submit] caches and
    returns the empty placeholder, as for an exhausted sequence. *)
Theorem generator_failure_ends_sequence
    (self : Worker) (code : string) (bot : ParticipantBot)
    (exc : exn) (rest : generator) (path html path' html' : pyval) :
  browser_bots self !! code = Some bot ->
  prepared_submits self !! code = None ->
  submits_generator bot = GenRaise exc :: rest ->
  (forall msg, exc <> StopIteration msg) ->
  let self1 := snd (prepare_next_submit (PStr code) path html self) in
  let self2 := snd (prepare_next_submit (PStr code) path' html' self1) in
  fst (prepare_next_submit (PStr code) path html self) = inl exc /\
  prepared_submits self1 = prepared_submits self /\
  generator_of self1 code = Some [] /\
  fst (prepare_next_submit (PStr code) path' html' self1) = inr (PDict ∅) /\
  prepared_submits self2 !! code = Some ∅.
Proof.
  intros Hbot Hnone Hgen Hexc self1 self2.
  assert (Hfirst : prepare_next_submit (PStr code) path html self
                   = (inl exc,
                      set_browser_bots (insert code (mkParticipantBot [] path html))
                        (set_browser_bots
                           (insert code (mkParticipantBot (submits_generator bot) path html))
                           self))).
  { rewrite (prepare_next_submit_fresh _ _ _ _ _ Hbot Hnone), Hgen. cbn.
    destruct exc; try done. by destruct (Hexc msg). }
  unfold self2, self1. rewrite Hfirst. cbn [fst snd].
  set (s1 := set_browser_bots _ _).
  assert (Hbot1 : browser_bots s1 !! code = Some (mkParticipantBot [] path html))
    by (unfold s1; cbn; apply lookup_insert_eq).
  assert (Hnone1 : prepared_submits s1 !! code = None) by exact Hnone.
  split; [done|]. split; [done|]. split.
  - unfold generator_of. by rewrite Hbot1.
  - rewrite (prepare_next_submit_fresh _ _ _ _ _ Hbot1 Hnone1). cbn.
    split; [done | apply lookup_insert_eq].
Qed.

Lemma generator_failure_ends_sequence_witness :
  let bot := mkParticipantBot [GenRaise (AssertionError (PStr "wrong page"));
                               GenYield {[ "post_data" := PInt 1 ]}] PNone PNone in
  let self := mkWorker {[ "abc" := bot ]} ∅ [] in
  let self1 := snd (prepare_next_submit (PStr "abc") PNone PNone self) in
  fst (prepare_next_submit (PStr "abc") PNone PNone self)
    = inl (AssertionError (PStr "wrong page")) /\
  fst (prepare_next_submit (PStr "abc") PNone PNone self1) = inr (PDict ∅).
Proof.
  intros bot self self1.
  pose proof (generator_failure_ends_sequence self "abc" bot
                (AssertionError (PStr "wrong page"))
                [GenYield {[ "post_data" := PInt 1 ]}] PNone PNone PNone PNone) as H.
  destruct H as (H1 & _ & _ & H4 & _);
    [vm_compute; reflexivity | vm_compute; reflexivity | reflexivity | discriminate |].
  split; [exact H1 | exact H4].
Defined.

(** ** What the worker's state always satisfies *)

Lemma cache_untagged_prepare (participant_code path html : pyval) (self : Worker) :
  cache_untagged self ->
  cache_untagged (snd (prepare_next_submit participant_code path html self)).
Proof.
  intros Hinv.
  destruct (prepare_next_submit_effect participant_code path html self) as [_ Heffect].
  destruct Heffect as [->|(code & bot & gen & _ & _ & _ & _ & Hcache)]; [done|].
  intros c d. destruct Hcache as [->|(submission & _ & Htag & ->)]; [apply Hinv|].
  destruct (decide (code = c)) as [->|Hne].
  - rewrite lookup_insert_eq. by intros [= <-].
  - rewrite lookup_insert_ne by done. apply Hinv.
Qed.

Lemma cache_untagged_consume (participant_code : pyval) (self : Worker) :
  cache_untagged self ->
  cache_untagged (snd (consume_next_submit participant_code self)).
Proof.
  intros Hinv.
  destruct (consume_next_submit_effect participant_code self) as (_ & _ & Heffect).
  destruct Heffect as [->|(code & _ & Hcache)]; [done|].
  intros c d. rewrite Hcache. intros Hc.
  apply lookup_delete_Some in Hc as [_ Hc]. by apply (Hinv c).
Qed.

Section StateInvariant.

Context (Participant_objects : gmap string ParticipantBot).
Context (repr format_exc : exn -> string).

Lemma kept_refl (self : Worker) : kept self self.
Proof. by split. Qed.

Lemma kept_trans (a b c : Worker) : kept a b -> kept b c -> kept a c.
Proof. intros [H1 H2] [H3 H4]. split; [congruence | auto]. Qed.

Lemma call_method_kept (m : method) (args : list pyval) (kwargs : pydict)
    (self : Worker) :
  kept self (snd (call_method Participant_objects m args kwargs self)).
Proof.
  destruct m; unfold call_method.
  - destruct (bind_params _ args kwargs) as [exc|[|a [|b [|c [|? ?]]]]];
      try apply kept_refl.
    split; [apply prepare_next_submit_effect | apply cache_untagged_prepare].
  - destruct (bind_params _ args kwargs) as [exc|[|a [|? ?]]]; try apply kept_refl.
    split; [apply consume_next_submit_effect | apply cache_untagged_consume].
  - destruct (bind_params _ args kwargs) as [exc|[|a [|? ?]]]; try apply kept_refl.
    unfold initialize_participant.
    destruct (dict_getitem Participant_objects a) as [?|[code bot]];
      [apply kept_refl | by split].
  - destruct (bind_params _ args kwargs) as [exc|?]; [apply kept_refl | by split].
  - destruct (kwargs !! "self"); apply kept_refl.
Qed.

Lemma invoke_kept (message : pyval) (self : Worker) :
  kept self (snd (invoke Participant_objects message self)).
Proof.
  unfold invoke, bind, lift_result.
  destruct (py_subscript message "command"); [apply kept_refl|].
  destruct (py_get message "args" _); [apply kept_refl|].
  destruct (py_get message "kwargs" _); [apply kept_refl|].
  destruct (get_method _); [apply kept_refl|].
  destruct (star_args _); [apply kept_refl|].
  destruct (star_kwargs _); [apply kept_refl|].
  apply call_method_kept.
Qed.

Lemma redis_listen_iteration_kept (self : Worker) (conn : redis) :
  match redis_listen_iteration Participant_objects repr format_exc self conn with
  | Idle => True
  | Served self' _ | Crashed _ self' _ => kept self self'
  end.
Proof.
  unfold redis_listen_iteration.
  destruct (blpop conn (redis_listen_keys self)) as [[[key bytes] conn1]|]; [|done].
  destruct (json_loads bytes) as [exc|message]; [apply kept_refl|].
  destruct (py_subscript message "response_key") as [exc|response_key];
    [apply kept_refl|].
  pose proof (invoke_kept message self) as Hkept.
  destruct (invoke Participant_objects message self) as [[exc|retval] self'];
    cbn [snd] in Hkept.
  - destruct (json_dumps _); [exact Hkept|]. by destruct (redis_key_of response_key).
  - destruct (json_dumps _); [exact Hkept|]. by destruct (redis_key_of response_key).
Qed.

Lemma redis_listen_kept (turns : nat) :
  forall (self : Worker) (conn : redis),
    kept self (redis_listen Participant_objects repr format_exc turns self conn).1.2.
Proof.
  induction turns as [|turns IH]; intros self conn; [apply kept_refl|].
  cbn [redis_listen].
  pose proof (redis_listen_iteration_kept self conn) as Hturn.
  destruct (redis_listen_iteration Participant_objects repr format_exc self conn)
    as [|self' conn'|exc self' conn']; [apply kept_refl | | exact Hturn].
  by apply kept_trans with self'.
Qed.

End StateInvariant.

(** X5. However many turns [redis_listen] has taken since the worker was
    built, and whatever messages it found: the worker still listens on
    the keys it was built with, no cached submission carries
    ['page_class'], and so [consume_next_submit] returns a cached
    submission exactly as it is in the cache. *)
Theorem cached_submissions_never_tagged
    (Participant_objects : gmap string ParticipantBot) (repr format_exc : exn -> string)
    (charset : string) (char_range : option string) (turns : nat) (conn : redis) :
  let self :=
    (redis_listen Participant_objects repr format_exc turns
       (Worker_init charset char_range) conn).1.2 in
  redis_listen_keys self = redis_listen_keys (Worker_init charset char_range) /\
  cache_untagged self /\
  (forall code submission,
      prepared_submits self !! code = Some submission ->
      fst (consume_next_submit (PStr code) self) = inr (PDict submission)).
Proof.
  intros self.
  destruct (redis_listen_kept Participant_objects repr format_exc turns
              (Worker_init charset char_range) conn) as [Hkeys Hcache].
  assert (Hinv : cache_untagged self).
  { apply Hcache. intros code submission H. cbn in H. by rewrite lookup_empty in H. }
  split; [exact Hkeys|]. split; [exact Hinv|].
  intros code submission Hentry.
  rewrite (consume_next_submit_cached _ _ _ Hentry). cbn.
  by rewrite (delete_id _ _ (Hinv _ _ Hentry)).
Qed.

(** ** Turns of the receive loop *)

Lemma blpop_Some_inv (conn conn' : redis) (keys : list string) (key : string)
    (value : message_bytes) :
  blpop conn keys = Some (key, value, conn') ->
  key ∈ keys /\
  exists rest, conn !! key = Some (value :: rest) /\ conn' = <[key := rest]> conn.
Proof.
  induction keys as [|k keys IH]; [discriminate|].
  cbn [blpop]. intros H.
  destruct (conn !! k) as [[|v rest]|] eqn:Hk.
  - destruct (IH H) as [Hin Hrest]. split; [by right | exact Hrest].
  - injection H as <- <- <-. split; [by left | by exists rest].
  - destruct (IH H) as [Hin Hrest]. split; [by right | exact Hrest].
Qed.

Lemma blpop_None_inv (conn : redis) (keys : list string) :
  blpop conn keys = None ->
  forall k, k ∈ keys -> default [] (conn !! k) = [].
Proof.
  induction keys as [|k keys IH]; intros H k' Hin; [by apply elem_of_nil in Hin|].
  cbn [blpop] in H.
  apply elem_of_cons in Hin as [->|Hin].
  - by destruct (conn !! k) as [[|v rest]|].
  - destruct (conn !! k) as [[|v rest]|]; [by apply IH | discriminate | by apply IH].
Qed.

Section Turns.

Context (Participant_objects : gmap string ParticipantBot).
Context (repr format_exc : exn -> string).

#[local] Abbreviation iteration_ :=
  (redis_listen_iteration Participant_objects repr format_exc).

(** X6. A turn of the loop is idle only when every listen queue is
    empty. Otherwise it takes exactly one request off the head of one
    listen queue; when it ends well it has appended exactly one
    response to one key, and when an exception leaves the loop the
    request is gone and nothing has been pushed. *)
Theorem redis_listen_turn_accounting (self : Worker) (conn : redis) :
  match iteration_ self conn with
  | Idle =>
      forall k, k ∈ redis_listen_keys self -> default [] (conn !! k) = []
  | Served _ conn' =>
      exists key request rest response_key response,
        key ∈ redis_listen_keys self /\
        conn !! key = Some (request :: rest) /\
        conn' = rpush (<[key := rest]> conn) response_key response
  | Crashed _ _ conn' =>
      exists key request rest,
        key ∈ redis_listen_keys self /\
        conn !! key = Some (request :: rest) /\
        conn' = <[key := rest]> conn
  end.
Proof.
  unfold redis_listen_iteration.
  destruct (blpop conn (redis_listen_keys self)) as [[[key bytes] conn1]|] eqn:Hpop;
    [|by apply blpop_None_inv].
  apply blpop_Some_inv in Hpop as (Hin & rest & Hhead & ->).
  assert (Hcrash : exists key0 request rest0,
             key0 ∈ redis_listen_keys self /\
             conn !! key0 = Some (request :: rest0) /\
             <[key := rest]> conn = <[key0 := rest0]> conn)
    by (by exists key, bytes, rest).
  destruct (json_loads bytes) as [exc|message]; [exact Hcrash|].
  destruct (py_subscript message "response_key") as [exc|response_key]; [exact Hcrash|].
  destruct (invoke Participant_objects message self) as [[exc|retval] self'].
  - destruct (json_dumps _) as [?|retval_json]; [exact Hcrash|].
    destruct (redis_key_of response_key) as [?|rk]; [exact Hcrash|].
    by exists key, bytes, rest, rk, retval_json.
  - destruct (json_dumps _) as [?|retval_json]; [exact Hcrash|].
    destruct (redis_key_of response_key) as [?|rk]; [exact Hcrash|].
    by exists key, bytes, rest, rk, retval_json.
Qed.

(** X7. A ping request leaves the worker as it is and is answered with
    [{'ok': True}], whatever positional arguments and whatever keywords
    the message carries, with one exception: a keyword named [self]
    clashes with the bound object, and the request is answered with the
    failure envelope of the [TypeError] instead. *)
Theorem ping_request_leaves_worker_alone
    (self : Worker) (conn conn1 : redis) (key rk : string) (m : pydict)
    (args : list pyval) (kwargs : pydict) :
  blpop conn (redis_listen_keys self) = Some (key, JsonText (PDict m), conn1) ->
  m !! "response_key" = Some (PStr rk) ->
  m !! "command" = Some (PStr "ping") ->
  star_args (default (PList []) (m !! "args")) = inr args ->
  star_kwargs (default (PDict ∅) (m !! "kwargs")) = inr kwargs ->
  iteration_ self conn =
    Served self
      (rpush conn1 rk
         (JsonText
            match kwargs !! "self" with
            | None => PDict {[ "ok" := PBool true ]}
            | Some _ =>
                failure_envelope repr format_exc
                  (TypeError "got multiple values for argument")
            end)).
Proof.
  intros Hpop Hrk Hcmd Hargs Hkwargs.
  rewrite (redis_listen_iteration_decoded _ _ _ _ _ _ _ rk _ Hpop Hrk).
  unfold invoke, bind, lift_result. cbn [py_subscript py_get]. rewrite Hcmd.
  change (get_method (PStr "ping")) with (inr (A := exn) ping_m).
  rewrite Hargs, Hkwargs. unfold call_method.
  by destruct (kwargs !! "self").
Qed.

(** X8. A result that Python takes for false ([None], as [clear_all]
    returns, or an empty dictionary) goes out as the empty dictionary,
    and it always does go out: the turn cannot fail on it. *)
Theorem falsy_result_sent_as_empty
    (self self' : Worker) (conn conn1 : redis) (key rk : string) (m : pydict)
    (retval : pyval) :
  blpop conn (redis_listen_keys self) = Some (key, JsonText (PDict m), conn1) ->
  m !! "response_key" = Some (PStr rk) ->
  invoke Participant_objects (PDict m) self = (inr retval, self') ->
  py_truthy retval = false ->
  iteration_ self conn = Served self' (rpush conn1 rk (JsonText (PDict ∅))).
Proof.
  intros Hpop Hrk Hinvoke Hfalsy.
  rewrite (redis_listen_iteration_decoded _ _ _ _ _ _ _ rk _ Hpop Hrk), Hinvoke.
  unfold py_or. by rewrite Hfalsy.
Qed.

End Turns.

Lemma ping_request_leaves_worker_alone_witness :
  let self := mkWorker ∅ {[ "abc" := ∅ ]} (listen_keys_of "a") in
  let request (kwargs : pydict) : pydict :=
    {[ "command" := PStr "ping"; "args" := PList [PInt 1; PInt 2];
       "kwargs" := PDict kwargs;
       "response_key" := PStr "otree-bots-ping-abc" ]} in
  redis_listen_iteration ∅ (fun _ => "repr") (fun _ => "traceback") self
      {[ "otree-bots-a" := [JsonText (PDict (request {[ "x" := PNone ]}))] ]}
    = Served self
        (rpush {[ "otree-bots-a" := [] ]} "otree-bots-ping-abc"
           (JsonText (PDict {[ "ok" := PBool true ]}))) /\
  redis_listen_iteration ∅ (fun _ => "repr") (fun _ => "traceback") self
      {[ "otree-bots-a" := [JsonText (PDict (request {[ "self" := PInt 1 ]}))] ]}
    = Served self
        (rpush {[ "otree-bots-a" := [] ]} "otree-bots-ping-abc"
           (JsonText (PDict {[ "response_error" := PStr "repr";
                               "traceback" := PStr "traceback" ]}))).
Proof.
  intros self request. split.
  - etransitivity;
      [apply (ping_request_leaves_worker_alone ∅ (fun _ => "repr") (fun _ => "traceback")
                self _ {[ "otree-bots-a" := [] ]} "otree-bots-a" "otree-bots-ping-abc"
                (request {[ "x" := PNone ]}) [PInt 1; PInt 2] {[ "x" := PNone ]});
       vm_compute; reflexivity
      | vm_compute; reflexivity].
  - etransitivity;
      [apply (ping_request_leaves_worker_alone ∅ (fun _ => "repr") (fun _ => "traceback")
                self _ {[ "otree-bots-a" := [] ]} "otree-bots-a" "otree-bots-ping-abc"
                (request {[ "self" := PInt 1 ]}) [PInt 1; PInt 2] {[ "self" := PInt 1 ]});
       vm_compute; reflexivity
      | vm_compute; reflexivity].
Defined.

Lemma falsy_result_sent_as_empty_witness :
  let self := mkWorker {[ "abc" := mkParticipantBot [] PNone PNone ]} ∅ (listen_keys_of "a") in
  let m : pydict := {[ "command" := PStr "clear_all";
                       "response_key" := PStr "otree-bots-clear" ]} in
  redis_listen_iteration ∅ (fun _ => "repr") (fun _ => "traceback") self
      {[ "otree-bots-a" := [JsonText (PDict m)] ]}
    = Served (mkWorker ∅ ∅ (listen_keys_of "a"))
        (rpush {[ "otree-bots-a" := [] ]} "otree-bots-clear" (JsonText (PDict ∅))).
Proof.
  intros self m.
  apply (falsy_result_sent_as_empty ∅ (fun _ => "repr") (fun _ => "traceback")
           self _ _ _ "otree-bots-a" "otree-bots-clear" m PNone);
    vm_compute; reflexivity.
Defined.

(** ** Channels *)

Lemma string_app_inj (p a b : string) : p +:+ a = p +:+ b -> a = b.
Proof. induction p as [|c p IH]; [done|]. intros [= H]. by apply IH. Qed.

(** X9. A worker built for a character range listens on the input
    channel of a participant exactly when the first character of the
    participant's code is in the range; the channel depends on that
    first character only, and the empty code has no channel
    ([IndexError]). *)
Theorem worker_listens_on_client_channel (char_range : string) (c : ascii) (tail tail' : string) :
  make_redis_key EmptyString = inl (IndexError "string index out of range") /\
  make_redis_key (String c tail) = make_redis_key (String c tail') /\
  (forall key,
      make_redis_key (String c tail) = inr key ->
      (key ∈ listen_keys_of char_range <-> c ∈ String.list_ascii_of_string char_range)) /\
  (forall charset,
      redis_listen_keys (Worker_init charset None) = listen_keys_of charset /\
      redis_listen_keys (Worker_init charset (Some EmptyString)) = listen_keys_of charset /\
      (char_range <> EmptyString ->
       redis_listen_keys (Worker_init charset (Some char_range))
         = listen_keys_of char_range)).
Proof.
  split; [done|]. split; [done|]. split.
  - intros key [= <-]. unfold listen_keys_of. rewrite list_elem_of_fmap. split.
    + intros (c' & Heq & Hin).
      apply string_app_inj in Heq. apply string_app_inj in Heq.
      by injection Heq as <-.
    + intros Hin. by exists c.
  - intros charset. split; [done|]. split; [done|]. intros Hne.
    unfold Worker_init. by destruct (String.eqb_spec char_range EmptyString).
Qed.

Lemma response_key_not_listened (kind code char_range : string) (k : ascii) (kind' : string) :
  kind = String k kind' -> kind' <> EmptyString \/ code <> EmptyString ->
  REDIS_KEY_PREFIX +:+ "-" +:+ kind +:+ code ∉ listen_keys_of char_range.
Proof.
  intros -> Hlong. unfold listen_keys_of. rewrite list_elem_of_fmap.
  intros (c & Heq & _).
  apply string_app_inj in Heq. apply string_app_inj in Heq.
  cbn in Heq. injection Heq as _ Heq.
  destruct kind' as [|? ?]; [|discriminate Heq].
  destruct Hlong as [?|Hcode]; [done|].
  cbn in Heq. by destruct code.
Qed.

(** X10. The response keys are kept apart from each other and from the
    requests: for any two participant codes the keys of two different
    kinds of call differ, the key of one kind determines the code, and
    no response key is a key that any worker listens on. *)
Theorem response_keys_are_separate (code code' char_range : string) :
  ping_response_key code <> initialize_response_key code' /\
  ping_response_key code <> prepare_response_key code' /\
  ping_response_key code <> consume_response_key code' /\
  initialize_response_key code <> prepare_response_key code' /\
  initialize_response_key code <> consume_response_key code' /\
  prepare_response_key code <> consume_response_key code' /\
  (ping_response_key code = ping_response_key code' -> code = code') /\
  (initialize_response_key code = initialize_response_key code' -> code = code') /\
  (prepare_response_key code = prepare_response_key code' -> code = code') /\
  (consume_response_key code = consume_response_key code' -> code = code') /\
  (ping_response_key code ∉ listen_keys_of char_range) /\
  (initialize_response_key code ∉ listen_keys_of char_range) /\
  (prepare_response_key code ∉ listen_keys_of char_range) /\
  (consume_response_key code ∉ listen_keys_of char_range).
Proof.
  unfold ping_response_key, initialize_response_key, prepare_response_key,
    consume_response_key.
  repeat split;
    try (intros H; apply string_app_inj in H; cbn in H; discriminate H);
    try (intros H; apply string_app_inj in H; by apply string_app_inj in H).
  - apply (response_key_not_listened "ping-" code char_range "p" "ing-");
      [done | by left].
  - apply (response_key_not_listened "initialize-" code char_range "i" "nitialize-");
      [done | by left].
  - apply (response_key_not_listened "prepare_next_submit-" code char_range
             "p" "repare_next_submit-"); [done | by left].
  - apply (response_key_not_listened "consume_next_submit-" code char_range
             "c" "onsume_next_submit-"); [done | by left].
Qed.

(** ** What the flush deletes *)

Lemma tokens_match_star (s : list ascii) : tokens_match [GStar] s = true.
Proof. induction s as [|c s IH]; [done|]. cbn. exact IH. Qed.

Lemma tokens_match_literal_prefix_inv (lits : list ascii) (ts : list glob_token) :
  forall s,
    tokens_match ((GChar <$> lits) ++ ts)%list s = true ->
    exists s', s = (lits ++ s')%list /\ tokens_match ts s' = true.
Proof.
  induction lits as [|c lits IH]; intros s H; [by exists s|].
  destruct s as [|c' s]; [discriminate H|].
  change (tokens_match ((GChar <$> c :: lits) ++ ts)%list (c' :: s))
    with (Ascii.eqb c c' && tokens_match ((GChar <$> lits) ++ ts)%list s) in H.
  apply andb_true_iff in H as [Hc H]. apply Ascii.eqb_eq in Hc as <-.
  destruct (IH s H) as (s' & -> & Hs'). by exists s'.
Qed.

Lemma class_of_chars_matches (c : ascii) (chars : list ascii) :
  existsb (class_item_matches c) (ClassChar <$> chars) = true <-> c ∈ chars.
Proof.
  induction chars as [|d chars IH]; cbn.
  - split; [discriminate | by intros ?%elem_of_nil].
  - rewrite orb_true_iff, IH, elem_of_cons, Ascii.eqb_eq.
    split; (intros [->|?]; [by left | by right]).
Qed.

(** The pattern of [redis_flush_bots], read, for a range of plain
    characters. *)
Lemma flush_pattern_tokens (char_range : string) :
  forallb plain_char (String.list_ascii_of_string char_range) = true ->
  glob_tokens None (String.list_ascii_of_string (flush_pattern char_range))
    = ((GChar <$> String.list_ascii_of_string REDIS_KEY_PREFIX)
         ++ [GClass false (ClassChar <$> String.list_ascii_of_string char_range); GStar])%list.
Proof.
  intros Hplain. unfold flush_pattern. rewrite !list_ascii_of_string_app.
  set (chars := String.list_ascii_of_string char_range) in *.
  assert (Hprefix : forallb literal_char (String.list_ascii_of_string REDIS_KEY_PREFIX) = true)
    by reflexivity.
  rewrite (glob_tokens_literal_prefix _ _ Hprefix). f_equal.
  change (String.list_ascii_of_string "[" ++ chars ++ String.list_ascii_of_string "]*")%list
    with ("["%char :: (chars ++ ["]"; "*"]%char))%list.
  transitivity (glob_tokens (Some (false, [])) (chars ++ ["]"; "*"]%char)%list);
    [|exact (glob_tokens_plain_class chars [] Hplain)].
  destruct chars as [|c chars'] eqn:Hchars; [done|].
  cbn in Hplain. apply andb_true_iff in Hplain as [Hc _].
  unfold plain_char in Hc. apply negb_true_iff in Hc.
  apply orb_false_iff in Hc as [_ Hc].
  change ((c :: chars') ++ ["]"; "*"]%char)%list
    with (c :: (chars' ++ ["]"; "*"]%char))%list.
  change (glob_tokens None ("["%char :: c :: (chars' ++ ["]"; "*"]%char))%list)
    with (if Ascii.eqb c "^"
          then glob_tokens (Some (true, [])) (chars' ++ ["]"; "*"]%char)%list
          else glob_tokens (Some (false, [])) (c :: (chars' ++ ["]"; "*"]%char))%list).
  by rewrite Hc.
Qed.

Lemma flush_pattern_matches (char_range key : string) :
  forallb plain_char (String.list_ascii_of_string char_range) = true ->
  glob_match (flush_pattern char_range) key = true <->
  exists c rest,
    key = REDIS_KEY_PREFIX +:+ String c rest /\
    c ∈ String.list_ascii_of_string char_range.
Proof.
  intros Hplain. unfold glob_match. rewrite (flush_pattern_tokens _ Hplain). split.
  - intros H. apply tokens_match_literal_prefix_inv in H as (s' & Hkey & Hclass).
    destruct s' as [|c s']; [discriminate Hclass|].
    cbn [tokens_match xorb] in Hclass. apply andb_true_iff in Hclass as [Hc _].
    exists c, (string_of_list_ascii s'). split.
    + rewrite <- (string_of_list_ascii_of_string key), Hkey.
      rewrite <- (string_of_list_ascii_of_string (REDIS_KEY_PREFIX +:+ _)).
      f_equal. rewrite list_ascii_of_string_app. cbn [String.list_ascii_of_string].
      by rewrite list_ascii_of_string_of_list_ascii.
    + by apply class_of_chars_matches.
  - intros (c & rest & -> & Hin).
    rewrite list_ascii_of_string_app, tokens_match_literal_prefix.
    cbn [String.list_ascii_of_string tokens_match xorb].
    rewrite (proj2 (class_of_chars_matches c _) Hin). apply tokens_match_star.
Qed.

(** X11. With a range of plain characters (letters and digits, say),
    [redis_flush_bots] deletes exactly the keys made of the prefix, one
    character of the range, and anything after it; every other key
    keeps its list. *)
Theorem redis_flush_bots_deletes_exactly (charset char_range : string) (conn : redis) :
  forallb plain_char (String.list_ascii_of_string char_range) = true ->
  char_range <> EmptyString ->
  (forall c rest,
      c ∈ String.list_ascii_of_string char_range ->
      redis_flush_bots charset conn (Some char_range)
        !! (REDIS_KEY_PREFIX +:+ String c rest) = None) /\
  (forall key,
      (forall c rest,
          c ∈ String.list_ascii_of_string char_range ->
          key <> REDIS_KEY_PREFIX +:+ String c rest) ->
      redis_flush_bots charset conn (Some char_range) !! key = conn !! key).
Proof.
  intros Hplain Hne. unfold redis_flush_bots.
  destruct (String.eqb_spec char_range EmptyString) as [?|_]; [done|].
  split.
  - intros c rest Hin. apply map_lookup_filter_None_2. right.
    intros msgs _. cbn.
    rewrite (proj2 (flush_pattern_matches char_range _ Hplain)); [done|].
    by exists c, rest.
  - intros key Hkey.
    assert (Hmiss : glob_match (flush_pattern char_range) key = false).
    { destruct (glob_match (flush_pattern char_range) key) eqn:Hm; [|done].
      apply (flush_pattern_matches _ _ Hplain) in Hm as (c & rest & -> & Hin).
      by destruct (Hkey c rest Hin). }
    destruct (conn !! key) as [msgs|] eqn:Hconn.
    + by apply map_lookup_filter_Some_2.
    + apply map_lookup_filter_None_2. by left.
Qed.

Lemma redis_flush_bots_deletes_exactly_witness :
  let conn : redis := {[ "otree-botsa-stale" := [NotJson "x"];
                         "otree-bots-a" := [NotJson "y"] ]} in
  redis_flush_bots "abc" conn (Some "abc") !! "otree-botsa-stale" = None /\
  redis_flush_bots "abc" conn (Some "abc") !! "otree-bots-a" = Some [NotJson "y"].
Proof.
  intros conn.
  pose proof (redis_flush_bots_deletes_exactly "abc" "abc" conn) as H.
  destruct H as [Hdel Hkeep]; [reflexivity | discriminate |].
  split.
  - exact (Hdel "a"%char "-stale" ltac:(vm_compute; repeat constructor)).
  - rewrite (Hkeep "otree-bots-a"); [reflexivity|].
    intros c rest Hin Heq.
    change "otree-bots-a" with (REDIS_KEY_PREFIX +:+ "-a") in Heq.
    apply string_app_inj in Heq. injection Heq as <- _.
    repeat (apply elem_of_cons in Hin as [Hin|Hin]; [discriminate Hin|]).
    by apply elem_of_nil in Hin.
Defined.

(** * Further properties of the proxy *)

Section RoundTrips.

Context (Participant_objects : gmap string ParticipantBot).
Context (repr format_exc : exn -> string).

#[local] Abbreviation client_blpop_ :=
  (client_blpop Participant_objects repr format_exc).
#[local] Abbreviation await_ := (await Participant_objects repr format_exc).
#[local] Abbreviation response_to_ := (response_to repr format_exc).

(** A request pushed on a listened key while the botworker is running,
    its listen queues and the response queue are empty, and it gets a
    turn before the timeout: the handler receives the response to what
    the request invoked. *)
Lemma request_served (w : world) (worker worker' : Worker) (key rk : string)
    (m : pydict) (outcome : exn + pyval) (turns : nat) (later : list nat) :
  botworker w = Some worker ->
  key ∈ redis_listen_keys worker ->
  rk ∉ redis_listen_keys worker ->
  idle_for (server w) (redis_listen_keys worker) ->
  default [] (server w !! rk) = [] ->
  schedule w = S turns :: later ->
  m !! "response_key" = Some (PStr rk) ->
  invoke Participant_objects (PDict m) worker = (outcome, worker') ->
  json_serializable (response_to_ outcome) = true ->
  bind (client_rpush key (JsonText (PDict m))) (fun _ => client_blpop_ rk) w
    = (inr (Some (JsonText (response_to_ outcome))),
       after_round_trip w key rk (JsonText (PDict m))
         (JsonText (response_to_ outcome)) worker' later).
Proof.
  intros Hworker Hin Hnotin Hidle Hresp Hsched Hrk Hinvoke Hser.
  assert (Hne : rk <> key) by (intros ->; by apply Hnotin).
  set (request := JsonText (PDict m)).
  set (answer := JsonText (response_to_ outcome)).
  set (conn0 := rpush (server w) key request).
  assert (Hpop := blpop_after_rpush (server w) _ key request Hidle Hin).
  fold conn0 in Hpop.
  set (conn1 := <[key := []]> conn0) in *.
  assert (Hturn : redis_listen_iteration Participant_objects repr format_exc worker conn0
                  = Served worker' (rpush conn1 rk answer)).
  { rewrite (redis_listen_iteration_decoded _ _ _ _ _ _ _ rk _ Hpop Hrk), Hinvoke.
    destruct outcome as [exc|retval]; [done|].
    unfold json_dumps. cbn [response_to] in Hser. by rewrite Hser. }
  assert (Hrk0 : conn0 !! rk = server w !! rk).
  { unfold conn0. destruct (rpush_lookup (server w) key request) as [_ Hother].
    by apply Hother. }
  assert (Hrk1 : rpush conn1 rk answer !! rk = Some [answer]).
  { destruct (rpush_lookup conn1 rk answer) as [-> _].
    unfold conn1. rewrite lookup_insert_ne by done. by rewrite Hrk0, Hresp. }
  unfold bind, client_rpush, modify, client_blpop.
  cbn [schedule set_server]. rewrite Hsched. cbn [hd tl]. fold conn0.
  set (w1 := set_schedule later (set_server conn0 w)).
  assert (Hawait : await_ (S turns) rk w1
                   = (Some answer, after_round_trip w key rk request answer worker' later)).
  { cbn [await]. cbn [blpop server w1 set_schedule set_server].
    rewrite Hrk0.
    assert (Hnone : match server w !! rk with
                    | Some (value :: rest) => Some (rk, value, <[rk := rest]> conn0)
                    | _ => None
                    end = None).
    { destruct (server w !! rk) as [[|? ?]|]; [done | discriminate Hresp | done]. }
    rewrite Hnone.
    unfold botworker_turn. cbn [botworker server w1 set_schedule set_server].
    rewrite Hworker, Hturn.
    destruct turns as [|turns']; cbn [await]; cbn [blpop server set_botworker set_server];
      by rewrite Hrk1. }
  by rewrite Hawait.
Qed.


Lemma after_round_trip_other (w : world) (key rk other : string)
    (request response : message_bytes) (worker' : Worker) (later : list nat) :
  other <> key -> other <> rk ->
  server (after_round_trip w key rk request response worker' later) !! other
    = server w !! other.
Proof.
  intros Hkey Hrk. cbn [after_round_trip server].
  rewrite lookup_insert_ne by done.
  destruct (rpush_lookup (<[key := []]> (rpush (server w) key request)) rk response)
    as [_ ->]; [|done].
  rewrite lookup_insert_ne by done.
  by destruct (rpush_lookup (server w) key request) as [_ ->].
Qed.

End RoundTrips.

Lemma ping_response_key_not_listened (code char_range : string) :
  ping_response_key code ∉ listen_keys_of char_range.
Proof.
  apply (response_key_not_listened "ping-" code char_range "p" "ing-"); [done | by left].
Qed.


Lemma prepare_response_key_not_listened (code char_range : string) :
  prepare_response_key code ∉ listen_keys_of char_range.
Proof.
  apply (response_key_not_listened "prepare_next_submit-" code char_range
           "p" "repare_next_submit-"); [done | by left].
Qed.

Lemma consume_response_key_not_listened (code char_range : string) :
  consume_response_key code ∉ listen_keys_of char_range.
Proof.
  apply (response_key_not_listened "consume_next_submit-" code char_range
           "c" "onsume_next_submit-"); [done | by left].
Qed.

Section Liveness.

Context (Participant_objects : gmap string ParticipantBot).
Context (repr format_exc : exn -> string).

#[local] Abbreviation ping_ := (ping Participant_objects repr format_exc).
#[local] Abbreviation await_ := (await Participant_objects repr format_exc).


(** Pushing a request and blocking on its response key, then going on
    with what arrived. *)
Lemma send_then {A} (key rk : string) (request : message_bytes)
    (k : option message_bytes -> M world A) (w w' : world)
    (result : option message_bytes) :
  bind (client_rpush key request)
       (fun _ => client_blpop Participant_objects repr format_exc rk) w
    = (inr result, w') ->
  bind (client_rpush key request)
       (fun _ => bind (client_blpop Participant_objects repr format_exc rk) k) w
    = k result w'.
Proof.
  unfold bind, client_rpush, modify. cbv beta iota. by intros ->.
Qed.


(** The module-level [ping] with a serving botworker that gets a turn. *)
Lemma ping_served (w : world) (worker : Worker)
    (char_range code key : string) (turns : nat) (later : list nat) :
  serving w worker char_range code key ->
  default [] (server w !! ping_response_key code) = [] ->
  schedule w = S turns :: later ->
  ping_ code w =
    (inr tt,
     after_round_trip w key (ping_response_key code) (JsonText (ping_msg code))
       (JsonText (PDict {[ "ok" := PBool true ]})) worker later).
Proof.
  intros (Hw & Hkeys & Hkey & Hin & Hidle) Hresp Hsched.
  unfold ping. unfold bind at 1, lift_result at 1. rewrite Hkey.
  unfold bind at 1, lift_result at 1.
  change (json_dumps (ping_msg code)) with (inr (A := exn) (JsonText (ping_msg code))).
  cbv beta iota.
  rewrite (send_then key (ping_response_key code) (JsonText (ping_msg code)) _ w
             (after_round_trip w key (ping_response_key code) (JsonText (ping_msg code))
                (JsonText (PDict {[ "ok" := PBool true ]})) worker later)
             (Some (JsonText (PDict {[ "ok" := PBool true ]})))); [done|].
  pose proof (request_served Participant_objects repr format_exc w worker worker key
                (ping_response_key code)
                {[ "command" := PStr "ping";
                   "response_key" := PStr (ping_response_key code) ]}
                (inr (PDict {[ "ok" := PBool true ]})) turns later) as Hserved.
  change (response_to repr format_exc (inr (PDict {[ "ok" := PBool true ]})))
    with (PDict {[ "ok" := PBool true ]}) in Hserved.
  apply Hserved; try done.
  - by rewrite Hkeys.
  - rewrite Hkeys. apply ping_response_key_not_listened.
  - by rewrite Hkeys.
Qed.


(** X12. The module-level [ping], when the botworker is running with
    empty queues and gets a turn before the timeout, returns without
    raising; the botworker is the same afterwards, and the request and
    its response are both gone from the server, whose other lists are
    untouched. *)
Theorem ping_is_answered (w : world) (worker : Worker)
    (char_range code key : string) (turns : nat) (later : list nat) :
  serving w worker char_range code key ->
  default [] (server w !! ping_response_key code) = [] ->
  schedule w = S turns :: later ->
  let w' := snd (ping_ code w) in
  fst (ping_ code w) = inr tt /\
  botworker w' = Some worker /\
  server w' !! key = Some [] /\
  server w' !! ping_response_key code = Some [] /\
  (forall other, other <> key -> other <> ping_response_key code ->
     server w' !! other = server w !! other) /\
  schedule w' = later.
Proof.
  intros Hserving Hresp Hsched. cbv zeta.
  rewrite (ping_served w worker char_range code key turns later Hserving Hresp Hsched).
  cbn [fst snd after_round_trip botworker server schedule].
  destruct Hserving as (_ & _ & Hkey & _ & _).
  assert (Hne : key <> ping_response_key code).
  { destruct code as [|c tail]; [discriminate Hkey|]. injection Hkey as <-.
    intros H. apply string_app_inj in H. cbn in H.
    injection H as _ H. discriminate H. }
  split; [done|]. split; [done|]. split; [|split; [|split; [|done]]].
  - rewrite lookup_insert_ne by done.
    destruct (rpush_lookup (<[key := []]> (rpush (server w) key (JsonText (ping_msg code))))
                (ping_response_key code) (JsonText (PDict {[ "ok" := PBool true ]})))
      as [_ ->]; [|done].
    apply lookup_insert_eq.
  - apply lookup_insert_eq.
  - intros other Hkey' Hrk.
    exact (after_round_trip_other w key (ping_response_key code) other _ _ worker later
             Hkey' Hrk).
Qed.



End Liveness.

Lemma ping_is_answered_witness :
  let worker := mkWorker ∅ ∅ (listen_keys_of "abc") in
  let w := mkWorld true None ∅ (Some worker) [1] in
  fst (ping ∅ (fun _ => "repr") (fun _ => "traceback") "abc123" w) = inr tt /\
  botworker (snd (ping ∅ (fun _ => "repr") (fun _ => "traceback") "abc123" w))
    = Some worker.
Proof.
  intros worker w.
  pose proof (ping_is_answered ∅ (fun _ => "repr") (fun _ => "traceback") w worker
                "abc" "abc123" "otree-bots-a" 0 []) as H.
  destruct H as (H1 & H2 & _).
  - unfold serving. split; [reflexivity|]. split; [reflexivity|]. split; [reflexivity|].
    split; [vm_compute; repeat constructor | intros k _; reflexivity].
  - reflexivity.
  - reflexivity.
  - split; [exact H1 | exact H2].
Defined.


Section Served.

Context (Participant_objects : gmap string ParticipantBot).
Context (repr format_exc : exn -> string).

#[local] Abbreviation client_blpop_ :=
  (client_blpop Participant_objects repr format_exc).
#[local] Abbreviation response_to_ := (response_to repr format_exc).

(** A request of a handler that a serving botworker answers in time. *)
Lemma served_request {A} (w : world) (worker worker' : Worker)
    (char_range code key rk : string) (m : pydict) (outcome : exn + pyval)
    (turns : nat) (later : list nat) (k : option message_bytes -> M world A) :
  serving w worker char_range code key ->
  rk ∉ listen_keys_of char_range ->
  default [] (server w !! rk) = [] ->
  schedule w = S turns :: later ->
  m !! "response_key" = Some (PStr rk) ->
  invoke Participant_objects (PDict m) worker = (outcome, worker') ->
  json_serializable (response_to_ outcome) = true ->
  bind (client_rpush key (JsonText (PDict m))) (fun _ => bind (client_blpop_ rk) k) w
    = k (Some (JsonText (response_to_ outcome)))
        (after_round_trip w key rk (JsonText (PDict m))
           (JsonText (response_to_ outcome)) worker' later).
Proof.
  intros (Hw & Hkeys & Hkey & Hin & Hidle) Hnotin Hresp Hsched Hrk Hinvoke Hser.
  apply send_then.
  apply (request_served Participant_objects repr format_exc w worker worker' key rk m
           outcome turns later); try done; by rewrite Hkeys.
Qed.




End Served.


(** ** The proxy and the worker, end to end *)

Lemma py_or_dict (d : pydict) : py_or (PDict d) (PDict ∅) = PDict d.
Proof.
  unfold py_or, py_truthy. destruct (decide (d = ∅)) as [->|Hne].
  - by rewrite bool_decide_eq_true_2.
  - by rewrite bool_decide_eq_false_2.
Qed.

Section EndToEnd.

Context (Participant_objects : gmap string ParticipantBot).
Context (repr format_exc : exn -> string).

#[local] Abbreviation response_to_ := (response_to repr format_exc).
#[local] Abbreviation proxy_prepare_ :=
  (EphemeralBrowserBot_prepare_next_submit Participant_objects repr format_exc).
#[local] Abbreviation get_next_post_data_ :=
  (get_next_post_data Participant_objects repr format_exc).

(** The two requests of the proxy, answered by a serving botworker. *)
Lemma prepare_next_submit_redis_served (eb : EphemeralBrowserBot) (html : pyval)
    (w : world) (worker worker' : Worker) (char_range key : string)
    (outcome : exn + pyval) (turns : nat) (later : list nat) :
  serving w worker char_range (participant_code eb) key ->
  default [] (server w !! prepare_response_key (participant_code eb)) = [] ->
  schedule w = S turns :: later ->
  json_serializable (prepare_msg eb html) = true ->
  prepare_next_submit (PStr (participant_code eb)) (request_path eb) html worker
    = (outcome, worker') ->
  json_serializable (response_to_ outcome) = true ->
  prepare_next_submit_redis Participant_objects repr format_exc eb html w
    = (inr (response_to_ outcome),
       after_round_trip w key (prepare_response_key (participant_code eb))
         (JsonText (prepare_msg eb html)) (JsonText (response_to_ outcome))
         worker' later).
Proof.
  intros Hserving Hresp Hsched Hmsg Hcall Hser.
  pose proof Hserving as (_ & _ & Hkey & _ & _).
  unfold prepare_next_submit_redis.
  unfold bind at 1, lift_result at 1. rewrite Hkey.
  unfold bind at 1, lift_result at 1, json_dumps. rewrite Hmsg.
  cbv beta iota. unfold prepare_msg in *.
  erewrite (served_request Participant_objects repr format_exc w worker worker'
              char_range (participant_code eb) key
              (prepare_response_key (participant_code eb)) _ outcome turns later);
    [reflexivity | exact Hserving | apply prepare_response_key_not_listened
    | exact Hresp | exact Hsched | reflexivity | | exact Hser].
  exact Hcall.
Qed.

Lemma get_next_post_data_redis_round_trip (eb : EphemeralBrowserBot)
    (w : world) (worker worker' : Worker) (char_range key : string)
    (outcome : exn + pyval) (turns : nat) (later : list nat) :
  serving w worker char_range (participant_code eb) key ->
  default [] (server w !! consume_response_key (participant_code eb)) = [] ->
  schedule w = S turns :: later ->
  consume_next_submit (PStr (participant_code eb)) worker = (outcome, worker') ->
  json_serializable (response_to_ outcome) = true ->
  get_next_post_data_redis Participant_objects repr format_exc eb w
    = (inr (response_to_ outcome),
       after_round_trip w key (consume_response_key (participant_code eb))
         (JsonText (consume_msg eb)) (JsonText (response_to_ outcome))
         worker' later).
Proof.
  intros Hserving Hresp Hsched Hcall Hser.
  pose proof Hserving as (_ & _ & Hkey & _ & _).
  unfold get_next_post_data_redis.
  unfold bind at 1, lift_result at 1. rewrite Hkey.
  unfold bind at 1, lift_result at 1.
  change (json_dumps (consume_msg eb)) with (inr (A := exn) (JsonText (consume_msg eb))).
  cbv beta iota. unfold consume_msg in *.
  erewrite (served_request Participant_objects repr format_exc w worker worker'
              char_range (participant_code eb) key
              (consume_response_key (participant_code eb)) _ outcome turns later);
    [reflexivity | exact Hserving | apply consume_response_key_not_listened
    | exact Hresp | exact Hsched | reflexivity | | exact Hser].
  exact Hcall.
Qed.

(** What the proxy's [prepare_next_submit] makes of a response. *)
Lemma proxy_prepare_verdict (eb : EphemeralBrowserBot) (html : pyval) (w w' : world)
    (result : pyval) :
  USE_REDIS w = true ->
  prepare_next_submit_redis Participant_objects repr format_exc eb html w
    = (inr result, w') ->
  proxy_prepare_ eb html w =
    (match check_response_error result with
     | inl exc => inl exc
     | inr result => check_request_error result
     end, w').
Proof.
  intros Huse Hredis. unfold EphemeralBrowserBot_prepare_next_submit.
  unfold bind at 1. rewrite Huse.
  unfold bind at 1. unfold bind at 1. rewrite Hredis.
  unfold check_response_error, check_request_error, bind, lift_result, raise, ret.
  destruct (py_contains "response_error" result) as [exc|[|]]; [done| |].
  - by destruct (py_subscript result "traceback").
  - destruct (py_contains "request_error" result) as [exc|[|]]; [done| |done].
    by destruct (py_subscript result "request_error").
Qed.

Lemma check_errors_dict (d : pydict) :
  d !! "response_error" = None ->
  check_response_error (PDict d) = inr (PDict d) /\
  check_request_error (PDict d)
    = match d !! "request_error" with
      | Some msg => inl (AssertionError msg)
      | None => inr tt
      end.
Proof.
  intros Hnoerr. unfold check_response_error, check_request_error, py_contains, py_subscript.
  rewrite Hnoerr. rewrite bool_decide_eq_false_2 by (by intros [? ?]).
  split; [done|].
  destruct (d !! "request_error") as [msg|] eqn:Hreq.
  - by rewrite bool_decide_eq_true_2 by (by eexists).
  - by rewrite bool_decide_eq_false_2 by (by intros [? ?]).
Qed.

(** X15. The proxy's [prepare_next_submit] over Redis, answered in
    time. When the worker's [prepare_next_submit] raised, the proxy
    raises an [Exception] carrying the worker's traceback text; when
    the participant is not loaded, it raises an [AssertionError]
    carrying the request error text; when the worker returned a
    dictionary with neither marker, it returns. The botworker is left
    as its own call left it. *)
Theorem proxy_prepare_over_redis (eb : EphemeralBrowserBot) (html : pyval)
    (w : world) (worker worker' : Worker) (char_range key : string)
    (outcome : exn + pyval) (turns : nat) (later : list nat) :
  USE_REDIS w = true ->
  serving w worker char_range (participant_code eb) key ->
  default [] (server w !! prepare_response_key (participant_code eb)) = [] ->
  schedule w = S turns :: later ->
  json_serializable (prepare_msg eb html) = true ->
  prepare_next_submit (PStr (participant_code eb)) (request_path eb) html worker
    = (outcome, worker') ->
  json_serializable (response_to_ outcome) = true ->
  botworker (snd (proxy_prepare_ eb html w)) = Some worker' /\
  (forall exc, outcome = inl exc ->
     fst (proxy_prepare_ eb html w) = inl (Exception_ (PStr (format_exc exc)))) /\
  (browser_bots worker !! participant_code eb = None ->
     fst (proxy_prepare_ eb html w)
       = inl (AssertionError (PStr (not_loaded_message (PStr (participant_code eb)))))) /\
  (forall d, outcome = inr (PDict d) ->
     d !! "response_error" = None -> d !! "request_error" = None ->
     fst (proxy_prepare_ eb html w) = inr tt).
Proof.
  intros Huse Hserving Hresp Hsched Hmsg Hcall Hser.
  pose proof (prepare_next_submit_redis_served eb html w worker worker' char_range key
                outcome turns later Hserving Hresp Hsched Hmsg Hcall Hser) as Hredis.
  rewrite (proxy_prepare_verdict eb html w _ _ Huse Hredis). cbn [fst snd].
  split; [done|]. split; [|split].
  - by intros exc ->.
  - intros Hnone.
    assert (Hout : outcome = inr (PDict {[ "request_error" :=
                      PStr (not_loaded_message (PStr (participant_code eb))) ]})).
    { unfold prepare_next_submit in Hcall.
      rewrite (dict_getitem_None _ _ Hnone) in Hcall. by injection Hcall as <- _. }
    rewrite Hout. cbn [response_to]. rewrite py_or_dict.
    destruct (check_errors_dict {[ "request_error" :=
                PStr (not_loaded_message (PStr (participant_code eb))) ]})
      as [-> ->]; [by apply lookup_singleton_ne|].
    by rewrite lookup_singleton_eq.
  - intros d -> Hnoerr Hnoreq. cbn [response_to]. rewrite py_or_dict.
    destruct (check_errors_dict d Hnoerr) as [-> ->]. by rewrite Hnoreq.
Qed.

Lemma proxy_prepare_in_process_run (eb : EphemeralBrowserBot) (html : pyval)
    (w : world) (worker worker' : Worker) (outcome : exn + pyval) :
  USE_REDIS w = false ->
  browser_bot_worker w = Some worker ->
  prepare_next_submit (PStr (participant_code eb)) (request_path eb) html worker
    = (outcome, worker') ->
  proxy_prepare_ eb html w
    = (match outcome with
       | inl exc => inl exc
       | inr result => check_request_error result
       end, set_browser_bot_worker (Some worker') w).
Proof.
  intros Huse Hworker Hcall.
  unfold EphemeralBrowserBot_prepare_next_submit.
  unfold bind at 1. rewrite Huse.
  unfold bind at 1. unfold prepare_next_submit_in_process.
  rewrite Hworker, Hcall.
  destruct outcome as [exc|result]; [done|].
  unfold check_request_error, bind, lift_result, raise, ret.
  destruct (py_contains "request_error" result) as [exc|[|]]; [done| |done].
  by destruct (py_subscript result "request_error").
Qed.

(** X16. The proxy's [prepare_next_submit] without Redis calls the
    worker of its own process: an exception of the worker's
    [prepare_next_submit] comes out as it is, a participant that is not
    loaded gives the same [AssertionError] as over Redis, and any other
    dictionary without a request error makes it return. The worker is
    left as the call left it. *)
Theorem proxy_prepare_in_process (eb : EphemeralBrowserBot) (html : pyval)
    (w : world) (worker worker' : Worker) (outcome : exn + pyval) :
  USE_REDIS w = false ->
  browser_bot_worker w = Some worker ->
  prepare_next_submit (PStr (participant_code eb)) (request_path eb) html worker
    = (outcome, worker') ->
  browser_bot_worker (snd (proxy_prepare_ eb html w)) = Some worker' /\
  (forall exc, outcome = inl exc -> fst (proxy_prepare_ eb html w) = inl exc) /\
  (browser_bots worker !! participant_code eb = None ->
     fst (proxy_prepare_ eb html w)
       = inl (AssertionError (PStr (not_loaded_message (PStr (participant_code eb)))))) /\
  (forall d, outcome = inr (PDict d) -> d !! "request_error" = None ->
     fst (proxy_prepare_ eb html w) = inr tt).
Proof.
  intros Huse Hworker Hcall.
  pose proof (proxy_prepare_in_process_run eb html w worker worker' outcome
                Huse Hworker Hcall) as Hrun.
  rewrite Hrun. cbn [fst snd]. split; [done|]. split; [|split].
  - by intros exc ->.
  - intros Hnone.
    assert (Hout : outcome = inr (PDict {[ "request_error" :=
                      PStr (not_loaded_message (PStr (participant_code eb))) ]})).
    { unfold prepare_next_submit in Hcall.
      rewrite (dict_getitem_None _ _ Hnone) in Hcall. by injection Hcall as <- _. }
    rewrite Hout.
    destruct (check_errors_dict {[ "request_error" :=
                PStr (not_loaded_message (PStr (participant_code eb))) ]})
      as [_ ->]; [by apply lookup_singleton_ne|].
    by rewrite lookup_singleton_eq.
  - intros d -> Hnoreq.
    unfold check_request_error, py_contains.
    by rewrite Hnoreq, bool_decide_eq_false_2 by (by intros [? ?]).
Qed.


Lemma get_next_post_data_redis_run (eb : EphemeralBrowserBot) (w w' : world)
    (result : exn + pyval) :
  USE_REDIS w = true ->
  get_next_post_data_redis Participant_objects repr format_exc eb w = (result, w') ->
  get_next_post_data_ eb w
    = (match result with inl exc => inl exc | inr submission => post_data_of submission end,
       w').
Proof.
  intros Huse Hredis. unfold get_next_post_data.
  unfold bind at 1. rewrite Huse. unfold bind at 1. rewrite Hredis.
  destruct result as [exc|submission]; [done|].
  unfold post_data_of, lift_result, raise. by destruct (py_truthy submission).
Qed.

Lemma get_next_post_data_in_process_run (eb : EphemeralBrowserBot) (w : world)
    (worker : Worker) (submission : pydict) :
  USE_REDIS w = false ->
  browser_bot_worker w = Some worker ->
  prepared_submits worker !! participant_code eb = Some submission ->
  get_next_post_data_ eb w
    = (post_data_of (PDict submission),
       set_browser_bot_worker
         (Some (set_prepared_submits (delete (participant_code eb)) worker)) w).
Proof.
  intros Huse Hworker Hentry. unfold get_next_post_data.
  unfold bind at 1. rewrite Huse. unfold bind at 1, pop_prepared_in_process.
  rewrite Hworker, (dict_pop_Some _ _ _ Hentry).
  unfold post_data_of, lift_result, raise. by destruct (py_truthy (PDict submission)).
Qed.

Lemma post_data_of_dict (d : pydict) (data : pyval) :
  d !! "post_data" = Some data -> post_data_of (PDict d) = inr data.
Proof.
  intros Hdata. unfold post_data_of, py_truthy, py_subscript. rewrite Hdata.
  rewrite bool_decide_eq_false_2; [done|].
  intros ->. by rewrite lookup_empty in Hdata.
Qed.

(** X17. Without Redis, one page of a bot from end to end, starting
    with nothing prepared for the participant: when the
    generator's next submission carries ['page_class'] and
    ['post_data'] (and no ['request_error']), the proxy's
    [prepare_next_submit] returns and [get_next_post_data] then returns
    exactly that ['post_data']; afterwards nothing is cached for the
    participant and the generator has moved by one. *)
Theorem one_page_in_process (eb : EphemeralBrowserBot) (html : pyval) (w : world)
    (worker : Worker) (bot : ParticipantBot) (submission : pydict)
    (rest : generator) (tag data : pyval) :
  USE_REDIS w = false ->
  browser_bot_worker w = Some worker ->
  browser_bots worker !! participant_code eb = Some bot ->
  prepared_submits worker !! participant_code eb = None ->
  submits_generator bot = GenYield submission :: rest ->
  submission !! "page_class" = Some tag ->
  submission !! "post_data" = Some data ->
  submission !! "request_error" = None ->
  let w1 := snd (proxy_prepare_ eb html w) in
  let w2 := snd (get_next_post_data_ eb w1) in
  fst (proxy_prepare_ eb html w) = inr tt /\
  fst (get_next_post_data_ eb w1) = inr data /\
  exists worker2,
    browser_bot_worker w2 = Some worker2 /\
    prepared_submits worker2 !! participant_code eb = None /\
    generator_of worker2 (participant_code eb) = Some rest.
Proof.
  intros Huse Hworker Hbot Hnone Hgen Htag Hdata Hnoreq. cbv zeta.
  set (code := participant_code eb) in *.
  set (stored := delete "page_class" submission).
  assert (Hnext : next (submits_generator bot) = (inr submission, rest))
    by (by rewrite Hgen).
  pose proof (prepare_next_submit_fresh worker code bot (request_path eb) html Hbot Hnone)
    as Hcall.
  rewrite Hnext in Hcall. cbv zeta in Hcall. rewrite Htag in Hcall.
  rewrite (proxy_prepare_in_process_run eb html w worker _ _ Huse Hworker Hcall).
  cbn [fst snd].
  assert (Hstored_data : stored !! "post_data" = Some data)
    by (unfold stored; by rewrite lookup_delete_ne).
  assert (Hstored_req : stored !! "request_error" = None)
    by (unfold stored; by rewrite lookup_delete_ne).
  split.
  { unfold check_request_error, py_contains. fold stored.
    by rewrite Hstored_req, bool_decide_eq_false_2 by (by intros [? ?]). }
  set (worker1 := set_prepared_submits _ _).
  assert (Hentry : prepared_submits worker1 !! code = Some stored)
    by (unfold worker1; cbn; apply lookup_insert_eq).
  rewrite (get_next_post_data_in_process_run eb (set_browser_bot_worker (Some worker1) w)
             worker1 stored Huse eq_refl Hentry).
  cbn [fst snd]. split; [by apply post_data_of_dict|].
  eexists. split; [reflexivity|]. split.
  - cbn. apply lookup_delete_eq.
  - unfold generator_of, worker1. cbn. by rewrite lookup_insert_eq.
Qed.

(** X18. Over Redis, with Redis in use: [get_next_post_data] for a
    participant for whom nothing is prepared does not show the worker's
    failure. The worker answers with its failure envelope, the proxy
    takes the envelope for a submission, and the caller sees a
    [KeyError] for ['post_data']. Without Redis the caller sees the
    [KeyError] for the participant code. *)
Theorem unprepared_consume_surfaces_as_key_error (eb : EphemeralBrowserBot)
    (w wl : world) (worker : Worker) (char_range key : string)
    (turns : nat) (later : list nat) :
  prepared_submits worker !! participant_code eb = None ->
  USE_REDIS w = true ->
  serving w worker char_range (participant_code eb) key ->
  default [] (server w !! consume_response_key (participant_code eb)) = [] ->
  schedule w = S turns :: later ->
  USE_REDIS wl = false ->
  browser_bot_worker wl = Some worker ->
  fst (get_next_post_data_ eb w) = inl (KeyError (PStr "post_data")) /\
  botworker (snd (get_next_post_data_ eb w)) = Some worker /\
  get_next_post_data_ eb wl = (inl (KeyError (PStr (participant_code eb))), wl).
Proof.
  intros Hnone Huse Hserving Hresp Hsched Husel Hworker.
  pose proof (consume_next_submit_missing worker _ Hnone) as Hcall.
  pose proof (get_next_post_data_redis_round_trip eb w worker worker char_range key
                (inl (KeyError (PStr (participant_code eb)))) turns later
                Hserving Hresp Hsched Hcall eq_refl) as Hredis.
  rewrite (get_next_post_data_redis_run eb w _ _ Huse Hredis). cbn [fst snd].
  split; [reflexivity|]. split; [reflexivity|].
  unfold get_next_post_data. unfold bind at 1. rewrite Husel.
  unfold bind at 1, pop_prepared_in_process.
  by rewrite Hworker, (dict_pop_None _ _ Hnone).
Qed.

(** X19. The response keys are the same from one call to the next, so a
    response left on the server by an earlier call that timed out is
    taken for the answer of the next call of the same kind: when the
    list under the consume response key is not empty,
    [get_next_post_data_redis] returns its head at once, the botworker
    takes no turn, and the new request stays on the input channel. *)
Theorem stale_response_is_taken (eb : EphemeralBrowserBot) (w : world)
    (key : string) (stale : message_bytes) (more : list message_bytes) :
  make_redis_key (participant_code eb) = inr key ->
  server w !! consume_response_key (participant_code eb) = Some (stale :: more) ->
  let run := get_next_post_data_redis Participant_objects repr format_exc eb w in
  fst run = json_loads stale /\
  botworker (snd run) = botworker w /\
  server (snd run) !! consume_response_key (participant_code eb) = Some more /\
  server (snd run) !! key
    = Some (default [] (server w !! key) ++ [JsonText (consume_msg eb)])%list.
Proof.
  intros Hkey Hstale. cbv zeta.
  set (code := participant_code eb) in *.
  assert (Hne : consume_response_key code <> key)
    by (by apply consume_response_key_is_no_input_key).
  set (conn0 := rpush (server w) key (JsonText (consume_msg eb))).
  assert (Hrk : conn0 !! consume_response_key code = Some (stale :: more)).
  { unfold conn0.
    destruct (rpush_lookup (server w) key (JsonText (consume_msg eb))) as [_ ->]; done. }
  assert (Hrun : get_next_post_data_redis Participant_objects repr format_exc eb w
                 = (json_loads stale,
                    set_server (<[consume_response_key code := more]> conn0)
                      (set_schedule (tl (schedule w)) (set_server conn0 w)))).
  { unfold get_next_post_data_redis. fold code.
    unfold bind at 1, lift_result at 1. rewrite Hkey.
    unfold bind at 1, lift_result at 1.
    change (json_dumps (consume_msg eb)) with (inr (A := exn) (JsonText (consume_msg eb))).
    cbv beta iota.
    unfold bind at 1, client_rpush at 1, modify at 1. cbv beta iota.
    unfold bind at 1, client_blpop at 1. cbn [schedule set_server]. fold conn0.
    assert (Hawait : forall turns,
               await Participant_objects repr format_exc turns (consume_response_key code)
                 (set_schedule (tl (schedule w)) (set_server conn0 w))
               = (Some stale,
                  set_server (<[consume_response_key code := more]> conn0)
                    (set_schedule (tl (schedule w)) (set_server conn0 w)))).
    { intros turns. destruct turns; cbn [await blpop server set_schedule set_server];
        by rewrite Hrk. }
    rewrite Hawait. by destruct (json_loads stale). }
  rewrite Hrun. cbn [fst snd botworker server set_server set_schedule].
  split; [done|]. split; [done|]. split; [apply lookup_insert_eq|].
  rewrite lookup_insert_ne by done. unfold conn0.
  by destruct (rpush_lookup (server w) key (JsonText (consume_msg eb))) as [-> _].
Qed.



End EndToEnd.

(** A botworker on an empty server serves the channels it listens on. *)
Lemma serving_empty_server (w : world) (worker : Worker) (char_range code key : string) :
  botworker w = Some worker ->
  redis_listen_keys worker = listen_keys_of char_range ->
  make_redis_key code = inr key ->
  bool_decide (key ∈ listen_keys_of char_range) = true ->
  server w = ∅ ->
  serving w worker char_range code key.
Proof.
  intros Hw Hkeys Hkey Hin Hempty.
  split; [done|]. split; [done|]. split; [done|].
  split; [by apply bool_decide_eq_true in Hin|].
  intros k _. by rewrite Hempty, lookup_empty.
Qed.

Lemma proxy_prepare_over_redis_witness :
  let eb := mkEphemeralBrowserBot "abc123" (PStr "/page1") in
  let untagged := {[ "post_data" := PInt 1 ]} : pydict in
  let worker := mkWorker {[ "abc123" := mkParticipantBot [GenYield untagged] PNone PNone ]} ∅
                  (listen_keys_of "abc") in
  let w := mkWorld true None ∅ (Some worker) [1] in
  fst (EphemeralBrowserBot_prepare_next_submit ∅ (fun _ => "repr") (fun _ => "traceback")
         eb (PStr "<html/>") w)
    = inl (Exception_ (PStr "traceback")).
Proof.
  intros eb untagged worker w.
  pose proof (proxy_prepare_over_redis ∅ (fun _ => "repr") (fun _ => "traceback")
                eb (PStr "<html/>") w worker
                (snd (prepare_next_submit (PStr "abc123") (PStr "/page1") (PStr "<html/>")
                        worker))
                "abc" "otree-bots-a" (inl (KeyError (PStr "page_class"))) 0 []) as H.
  destruct H as (_ & Hraise & _).
  - reflexivity.
  - apply serving_empty_server; vm_compute; reflexivity.
  - reflexivity.
  - reflexivity.
  - vm_compute. reflexivity.
  - vm_compute. reflexivity.
  - vm_compute. reflexivity.
  - exact (Hraise _ eq_refl).
Defined.

Lemma proxy_prepare_in_process_witness :
  let eb := mkEphemeralBrowserBot "abc123" (PStr "/page1") in
  let worker := mkWorker ∅ ∅ [] in
  let w := mkWorld false (Some worker) ∅ None [] in
  fst (EphemeralBrowserBot_prepare_next_submit ∅ (fun _ => "repr") (fun _ => "traceback")
         eb (PStr "<html/>") w)
    = inl (AssertionError (PStr (not_loaded_message (PStr "abc123")))).
Proof.
  intros eb worker w.
  pose proof (proxy_prepare_in_process ∅ (fun _ => "repr") (fun _ => "traceback")
                eb (PStr "<html/>") w worker worker
                (inr (PDict {[ "request_error" :=
                                 PStr (not_loaded_message (PStr "abc123")) ]}))) as H.
  destruct H as (_ & _ & Hassert & _).
  - reflexivity.
  - reflexivity.
  - vm_compute. reflexivity.
  - exact (Hassert eq_refl).
Defined.

Lemma one_page_in_process_witness :
  let eb := mkEphemeralBrowserBot "abc123" (PStr "/page1") in
  let data := PDict {[ "field" := PStr "1" ]} in
  let submission := {[ "page_class" := PObj "Page1"; "post_data" := data ]} : pydict in
  let worker := mkWorker {[ "abc123" := mkParticipantBot [GenYield submission] PNone PNone ]}
                  ∅ [] in
  let w := mkWorld false (Some worker) ∅ None [] in
  let w1 := snd (EphemeralBrowserBot_prepare_next_submit ∅ (fun _ => "repr")
                   (fun _ => "traceback") eb (PStr "<html/>") w) in
  fst (get_next_post_data ∅ (fun _ => "repr") (fun _ => "traceback") eb w1) = inr data.
Proof.
  intros eb data submission worker w w1.
  pose proof (one_page_in_process ∅ (fun _ => "repr") (fun _ => "traceback")
                eb (PStr "<html/>") w worker
                (mkParticipantBot [GenYield submission] PNone PNone)
                submission [] (PObj "Page1") data) as H.
  destruct H as (_ & Hdata & _); [vm_compute; reflexivity ..|].
  exact Hdata.
Defined.

Lemma unprepared_consume_surfaces_as_key_error_witness :
  let eb := mkEphemeralBrowserBot "abc123" (PStr "/page1") in
  let worker := mkWorker ∅ ∅ (listen_keys_of "abc") in
  let w := mkWorld true None ∅ (Some worker) [1] in
  fst (get_next_post_data ∅ (fun _ => "repr") (fun _ => "traceback") eb w)
    = inl (KeyError (PStr "post_data")).
Proof.
  intros eb worker w.
  pose proof (unprepared_consume_surfaces_as_key_error ∅ (fun _ => "repr")
                (fun _ => "traceback") eb w (mkWorld false (Some worker) ∅ None [])
                worker "abc" "otree-bots-a" 0 []) as H.
  destruct H as (Hkey & _).
  - reflexivity.
  - reflexivity.
  - apply serving_empty_server; vm_compute; reflexivity.
  - reflexivity.
  - reflexivity.
  - reflexivity.
  - reflexivity.
  - exact Hkey.
Defined.

Lemma stale_response_is_taken_witness :
  let eb := mkEphemeralBrowserBot "abc123" (PStr "/page1") in
  let old := JsonText (PDict {[ "post_data" := PInt 1 ]}) in
  let w := mkWorld true None {[ "otree-bots-consume_next_submit-abc123" := [old] ]}
             None [] in
  fst (get_next_post_data_redis ∅ (fun _ => "repr") (fun _ => "traceback") eb w)
    = inr (PDict {[ "post_data" := PInt 1 ]}).
Proof.
  intros eb old w.
  pose proof (stale_response_is_taken ∅ (fun _ => "repr") (fun _ => "traceback")
                eb w "otree-bots-a" old []) as H.
  destruct H as (Hfst & _); [vm_compute; reflexivity ..|].
  exact Hfst.
Defined.


(** * startproject: the question about the sample games *)

Lemma ask_line (line : string) (rest : list string) :
  Startproject.ask (line :: rest)
    = match Startproject.verdict line with
      | Some answer => (Some answer, rest)
      | None => Startproject.ask rest
      end.
Proof.
  destruct line as [|c tail]; [done|].
  cbn [Startproject.ask Startproject.verdict].
  set (l := Startproject.lower c).
  change (is_substring (String.list_ascii_of_string (String l EmptyString))
            (String.list_ascii_of_string "yn"))
    with ((Ascii.eqb l "y" && true) || ((Ascii.eqb l "n" && true) || (false || false))).
  destruct (Ascii.eqb_spec l "y") as [->|Hy]; [done|].
  destruct (Ascii.eqb_spec l "n") as [->|Hn]; done.
Qed.

Lemma ask_skips (skipped : list string) (inputs : list string) :
  Forall (fun line => Startproject.verdict line = None) skipped ->
  Startproject.ask (skipped ++ inputs) = Startproject.ask inputs.
Proof.
  induction 1 as [|line skipped Hline _ IH]; [done|].
  change ((line :: skipped) ++ inputs)%list with (line :: (skipped ++ inputs))%list.
  by rewrite ask_line, Hline.
Qed.

(** X21. The prompt loop of [handle] reads lines until one decides: an
    empty line is a yes, a line whose first character is [y] or [n] in
    either case gives that answer, any other line makes it ask again.
    It returns only ["y"] or ["n"], leaves the lines after the deciding
    one unread, and when no line decides it ends in the [EOFError] of
    [input]. *)
Theorem ask_reads_until_decided (skipped : list string) (line : string)
    (rest : list string) (answer : string) :
  Forall (fun l => Startproject.verdict l = None) skipped ->
  Startproject.verdict line = Some answer ->
  Startproject.ask (skipped ++ line :: rest) = (Some answer, rest) /\
  (answer = "y" \/ answer = "n") /\
  Startproject.ask skipped = (None, []).
Proof.
  intros Hskipped Hline. split; [|split].
  - by rewrite (ask_skips _ _ Hskipped), ask_line, Hline.
  - destruct line as [|c tail]; cbn in Hline; [by left; injection Hline|].
    destruct (Ascii.eqb _ "y"); [by left; injection Hline|].
    destruct (Ascii.eqb _ "n"); [by right; injection Hline | discriminate].
  - rewrite <- (app_nil_r skipped). by rewrite (ask_skips _ _ Hskipped).
Qed.

Lemma ask_reads_until_decided_witness :
  Startproject.ask ["maybe"; "?"; "No thanks"; "y"] = (Some "n", ["y"]) /\
  Startproject.ask ["maybe"; "?"] = (None, []).
Proof.
  destruct (ask_reads_until_decided ["maybe"; "?"] "No thanks" ["y"] "n")
    as (H1 & _ & H3).
  - repeat constructor.
  - reflexivity.
  - split; [exact H1 | exact H3].
Defined.

(** X22. [handle] asks its question whatever the options are. A
    template given in the options is handed on unchanged, whatever the
    answer; without one (absent, or [None]) the template becomes the
    archive of the sample games on a yes and the project template of
    the installation on a no. *)
Theorem handle_keeps_given_template (project_template_location : string)
    (options : pydict) (skipped : list string) (line : string) (rest : list string)
    (answer : string) :
  Forall (fun l => Startproject.verdict l = None) skipped ->
  Startproject.verdict line = Some answer ->
  let run := Startproject.handle_options project_template_location options
               (skipped ++ line :: rest) in
  snd run = rest /\
  (forall given, options !! "template" = Some given -> given <> PNone ->
     fst run = Some options) /\
  (default PNone (options !! "template") = PNone ->
     fst run = Some (<["template" :=
                        PStr (if String.eqb answer "y"
                              then Startproject.sample_games_location
                              else project_template_location)]> options)).
Proof.
  intros Hskipped Hline. cbv zeta. unfold Startproject.handle_options.
  rewrite (ask_skips _ _ Hskipped), ask_line, Hline.
  split; [by destruct (default PNone (options !! "template"))|]. split.
  - intros given Hgiven Hne. rewrite Hgiven. cbn. by destruct given.
  - by intros ->.
Qed.

Lemma handle_keeps_given_template_witness :
  Startproject.handle_options "/opt/otree/project_template"
      {[ "name" := PStr "shop"; "template" := PStr "/my/template" ]} ["x"; "Yes"]
    = (Some {[ "name" := PStr "shop"; "template" := PStr "/my/template" ]}, []) /\
  Startproject.handle_options "/opt/otree/project_template"
      {[ "name" := PStr "shop"; "template" := PNone ]} ["x"; "NO"]
    = (Some {[ "name" := PStr "shop";
               "template" := PStr "/opt/otree/project_template" ]}, []).
Proof.
  split.
  - pose proof (handle_keeps_given_template "/opt/otree/project_template"
                  {[ "name" := PStr "shop"; "template" := PStr "/my/template" ]}
                  ["x"] "Yes" [] "y") as H.
    destruct H as (Hrest & Hkept & _); [repeat constructor | reflexivity |].
    apply injective_projections; [|exact Hrest].
    exact (Hkept (PStr "/my/template") ltac:(vm_compute; reflexivity) ltac:(discriminate)).
  - pose proof (handle_keeps_given_template "/opt/otree/project_template"
                  {[ "name" := PStr "shop"; "template" := PNone ]}
                  ["x"] "NO" [] "n") as H.
    destruct H as (Hrest & _ & Hset); [repeat constructor | reflexivity |].
    apply injective_projections; [|exact Hrest].
    etransitivity; [exact (Hset ltac:(vm_compute; reflexivity)) | vm_compute; reflexivity].
Defined.

(** * Loading a participant without Redis *)

(** X23. [initialize_bot] without Redis loads the participant into the
    worker of its own process and returns; for a participant the
    database does not know, the [DoesNotExist] of the lookup comes out
    as it is (over Redis the caller only learns that an error
    occurred), and the worker is unchanged; when no worker was ever set
    in the process, the call fails on the missing attribute. *)
Theorem initialize_bot_in_process_outcome
    (Participant_objects : gmap string ParticipantBot) (repr format_exc : exn -> string)
    (w : world) (code : string) :
  USE_REDIS w = false ->
  let run := initialize_bot Participant_objects repr format_exc code w in
  match browser_bot_worker w, Participant_objects !! code with
  | Some worker, Some bot =>
      fst run = inr tt /\
      browser_bot_worker (snd run) = Some (set_browser_bots (insert code bot) worker)
  | Some worker, None =>
      fst run = inl DoesNotExist /\ browser_bot_worker (snd run) = Some worker
  | None, _ =>
      run = (inl (AttributeError "initialize_participant"), w)
  end.
Proof.
  intros Huse. cbv zeta. unfold initialize_bot, bind. rewrite Huse.
  unfold initialize_bot_in_process, initialize_participant.
  destruct (browser_bot_worker w) as [worker|] eqn:Hw.
  2:{ rewrite ?Hw. by destruct (Participant_objects !! code). }
  rewrite ?Hw.
  destruct (Participant_objects !! code) as [bot|] eqn:Hdb.
  - by rewrite (dict_getitem_Some _ _ _ Hdb).
  - by rewrite (dict_getitem_None _ _ Hdb).
Qed.

Lemma initialize_bot_in_process_outcome_witness :
  let bot := mkParticipantBot [] PNone PNone in
  let w := mkWorld false (Some (mkWorker ∅ ∅ [])) ∅ None [] in
  fst (initialize_bot {[ "abc" := bot ]} (fun _ => "repr") (fun _ => "traceback") "abc" w)
    = inr tt /\
  fst (initialize_bot ∅ (fun _ => "repr") (fun _ => "traceback") "abc" w)
    = inl DoesNotExist.
Proof.
  intros bot w. split.
  - exact (proj1 (initialize_bot_in_process_outcome {[ "abc" := bot ]} (fun _ => "repr")
                    (fun _ => "traceback") w "abc" eq_refl)).
  - exact (proj1 (initialize_bot_in_process_outcome ∅ (fun _ => "repr")
                    (fun _ => "traceback") w "abc" eq_refl)).
Defined.
